(** * mem0-webhook: a shallow embedding of [mem0_webhook_server.py]

    The server relays webhook payloads to an external memory store.  This
    development embeds the functions of the server as Rocq functions and
    proves, or refutes on a concrete input, the properties stated for them.

    Modelling conventions.
    - A Python [str] is a [string]; one [ascii] stands for one character, so
      slicing and [len] count elements of the string.
    - A value coming out of [json.loads] (a request body, caller metadata,
      the answer of the memory client) is a [value].  A Python [dict] is an
      association list in insertion order; [Dict.get] reads the first
      binding of a key and [Dict.set] overwrites it in place or appends it,
      as a Python dict does.
    - A call that can raise returns a [result]; the handlers that read the
      clock or talk to the memory client thread a [World] through. *)

From Stdlib Require Import List String Ascii ZArith Bool Lia.
From Stdlib Require Import Floats.SpecFloat.
From Stdlib Require Import DecimalString.
Import ListNotations.

Local Open Scope string_scope.
Local Open Scope list_scope.

Set Warnings "-register-all".

(** ** Python values *)

Inductive value : Type :=
| VNone
| VBool (b : bool)
| VInt (z : Z)
| VFloat (f : spec_float)
| VStr (s : string)
| VList (l : list value)
| VDict (d : list (string * value)).

(** Truth value of an object, as [or], [if] and [not] test it. *)
Definition truthy (v : value) : bool :=
  match v with
  | VNone => false
  | VBool b => b
  | VInt z => negb (Z.eqb z 0)
  | VFloat (S754_zero _) => false
  | VFloat _ => true
  | VStr s => negb (String.eqb s EmptyString)
  | VList [] => false
  | VList (_ :: _) => true
  | VDict [] => false
  | VDict (_ :: _) => true
  end.

(** [type(v).__name__], used in the messages of [TypeError] and
    [AttributeError]. *)
Definition type_name (v : value) : string :=
  match v with
  | VNone => "NoneType"
  | VBool _ => "bool"
  | VInt _ => "int"
  | VFloat _ => "float"
  | VStr _ => "str"
  | VList _ => "list"
  | VDict _ => "dict"
  end.

(** ** Dictionaries *)

Module Dict.

Definition t : Type := list (string * value).

Fixpoint get (k : string) (d : t) : option value :=
  match d with
  | [] => None
  | (k', v) :: d' => if String.eqb k k' then Some v else get k d'
  end.

(** [d[k] = v] *)
Fixpoint set (k : string) (v : value) (d : t) : t :=
  match d with
  | [] => [(k, v)]
  | (k', v') :: d' =>
      if String.eqb k k' then (k', v) :: d' else (k', v') :: set k v d'
  end.

(** [d.update(other)]: the bindings of [other] are stored one after the
    other, in the order of [other]. *)
Definition update (d other : t) : t :=
  fold_left (fun acc kv => set (fst kv) (snd kv) acc) other d.

Definition keys (d : t) : list string := map fst d.

Definition mem (k : string) (d : t) : bool :=
  match get k d with Some _ => true | None => false end.

(** The invariant of a Python dict: no key occurs twice. *)
Definition wf (d : t) : Prop := NoDup (keys d).

End Dict.

(** [k in [k1, ..., kn]] for a list of strings. *)
Definition str_in (k : string) (ks : list string) : bool :=
  existsb (String.eqb k) ks.

(** ** Exceptions and results *)

Inductive exc_type : Type :=
| IndexError
| KeyError
| TypeError
| AttributeError
| OtherException (name : string).

(** An instance of [Exception]; [exc_msg] is what [str(e)] returns. *)
Record exn : Type := Exn { exc_class : exc_type; exc_msg : string }.

Definition py_str_exn (e : exn) : string := exc_msg e.

Inductive result (A : Type) : Type :=
| Ok (a : A)
| Raise (e : exn).

Arguments Ok {A} a.
Arguments Raise {A} e.

Definition bind {A B : Type} (r : result A) (k : A -> result B) : result B :=
  match r with
  | Ok a => k a
  | Raise e => Raise e
  end.

Notation "x <- r ;; k" := (bind r (fun x => k))
  (at level 61, r at next level, right associativity).

Definition is_ok {A : Type} (r : result A) : bool :=
  match r with Ok _ => true | Raise _ => false end.

(** ** Primitive operations on values *)

(** [r[0]] *)
Definition getitem0 (r : value) : result value :=
  match r with
  | VList (x :: _) => Ok x
  | VList [] => Raise (Exn IndexError "list index out of range")
  | VStr (String c _) => Ok (VStr (String c EmptyString))
  | VStr EmptyString => Raise (Exn IndexError "string index out of range")
  | VDict _ => Raise (Exn KeyError "0")
  | _ => Raise (Exn TypeError
                  ("'" ++ type_name r ++ "' object is not subscriptable"))
  end.

(** [x.get(k, default)]; only a dict has the method. *)
Definition method_get (x : value) (k : string) (default : value)
  : result value :=
  match x with
  | VDict d =>
      Ok (match Dict.get k d with Some v => v | None => default end)
  | _ => Raise (Exn AttributeError
                  ("'" ++ type_name x ++ "' object has no attribute 'get'"))
  end.

(** [s[:n]] on a string. *)
Fixpoint str_take (n : nat) (s : string) : string :=
  match n, s with
  | S n', String c s' => String c (str_take n' s')
  | _, _ => EmptyString
  end.

(** ** Memory identifier extraction ([create_memory], lines 133-138) *)

Definition extract_memory_id (res : value) : result value :=
  match res with
  | VDict _ =>
      (* result.get('id') or result.get('results', [{}])[0].get('id') *)
      id <- method_get res "id" VNone ;;
      if truthy id then Ok id
      else
        rs <- method_get res "results" (VList [VDict []]) ;;
        first <- getitem0 rs ;;
        method_get first "id" VNone
  | VList (first :: _) =>
      (* elif isinstance(result, list) and result: result[0].get('id') *)
      method_get first "id" VNone
  | _ => Ok VNone
  end.

(** ** Dates ([datetime]) *)

Record datetime : Type := Datetime {
  year : Z; month : Z; day : Z;
  hour : Z; minute : Z; second : Z; microsecond : Z
}.

(** The range in which [datetime] renders a four-digit year on every
    platform. *)
Definition valid_datetime (d : datetime) : Prop :=
  (1000 <= year d <= 9999)%Z /\ (1 <= month d <= 12)%Z /\
  (1 <= day d <= 31)%Z /\ (0 <= hour d <= 23)%Z /\
  (0 <= minute d <= 59)%Z /\ (0 <= second d <= 59)%Z /\
  (0 <= microsecond d <= 999999)%Z.

Definition digit (n : Z) : ascii :=
  ascii_of_nat (48 + Z.to_nat (n mod 10)).

Definition pad2 (n : Z) : string :=
  String (digit (n / 10)) (String (digit n) EmptyString).

Definition pad4 (n : Z) : string :=
  String (digit (n / 1000)) (String (digit (n / 100)) (pad2 n)).

Definition pad6 (n : Z) : string :=
  String (digit (n / 100000)) (String (digit (n / 10000)) (pad4 n)).

(** [d.strftime("%Y-%m-%d")] *)
Definition strftime_Ymd (d : datetime) : string :=
  pad4 (year d) ++ "-" ++ pad2 (month d) ++ "-" ++ pad2 (day d).

(** [d.strftime("%Y-%m")] *)
Definition strftime_Ym (d : datetime) : string :=
  pad4 (year d) ++ "-" ++ pad2 (month d).

(** [str(n)] for an [int]. *)
Definition py_str_int (n : Z) : string :=
  NilZero.string_of_int (Z.to_int n).

(** [d.isoformat()]: the microseconds are left out when they are zero. *)
Definition isoformat (d : datetime) : string :=
  strftime_Ymd d ++ "T" ++
  pad2 (hour d) ++ ":" ++ pad2 (minute d) ++ ":" ++ pad2 (second d) ++
  (if Z.eqb (microsecond d) 0 then EmptyString else "." ++ pad6 (microsecond d)).

(** ** The world outside the handlers *)

(** The arguments of one [mem0_client.add(messages, user_id=...,
    metadata=..., output_format=...)]. *)
Record AddCall : Type := {
  add_messages : value;
  add_user_id : value;
  add_metadata : Dict.t;
  add_output_format : string
}.

(** The arguments of one [mem0_client.search(query, user_id=..., limit=...)]. *)
Record SearchCall : Type := {
  search_query : string;
  search_user_id : string;
  search_limit : Z
}.

(** What the handlers have done so far: how often the clock was read and
    which calls the memory client received, oldest first. *)
Record World : Type := {
  clock_reads : nat;
  add_calls : list AddCall;
  search_calls : list SearchCall
}.

Definition initial_world : World :=
  {| clock_reads := 0; add_calls := []; search_calls := [] |}.

(** The memory client ([AsyncMemoryClient]) is an external service: its
    answer to a call may depend on everything that happened before. *)
Record Mem0Client : Type := {
  add : World -> AddCall -> result value;
  search : World -> SearchCall -> result value
}.

(** A handler: it runs in a world, returns or raises, and leaves a world. *)
Definition M (A : Type) : Type := World -> result A * World.

Definition ret {A : Type} (a : A) : M A := fun w => (Ok a, w).

Definition lift {A : Type} (r : result A) : M A := fun w => (r, w).

Definition mbind {A B : Type} (m : M A) (k : A -> M B) : M B :=
  fun w =>
    match m w with
    | (Ok a, w') => k a w'
    | (Raise e, w') => (Raise e, w')
    end.

Notation "x <<- m ;; k" := (mbind m (fun x => k))
  (at level 61, m at next level, right associativity).

(** [try: m  except Exception as e: h e] *)
Definition try_except {A : Type} (m : M A) (h : exn -> M A) : M A :=
  fun w =>
    match m w with
    | (Ok a, w') => (Ok a, w')
    | (Raise e, w') => h e w'
    end.

(** ** Request and response shapes *)

(** A validated [MemoryWebhookRequest]: [content] is a [str], every other
    field is [Optional]. *)
Module MemoryWebhookRequest.
Record t : Type := {
  content : string;
  user_id : option string;
  category : option string;
  metadata : option Dict.t;
  client : option string;
  project_type : option string;
  source : option string
}.
End MemoryWebhookRequest.

(** The dict [create_memory] returns. *)
Module MemoryResult.
Record t : Type := {
  success : bool;
  memory_id : value;
  user_id : value;
  content : value;
  metadata : Dict.t
}.
End MemoryResult.

(** One entry of the batch endpoint's [errors] list. *)
Module BatchError.
Record t : Type := { content : string; error : string }.
End BatchError.

(** The dict the batch endpoint returns; [errors = None] is Python's [None]. *)
Module BatchResponse.
Record t : Type := {
  success : bool;
  created : nat;
  failed : nat;
  results : list MemoryResult.t;
  errors : option (list BatchError.t);
  timestamp : string
}.
End BatchResponse.

Module WebhookHealthResponse.
Record t : Type := {
  status : string;
  timestamp : string;
  mem0_connected : bool;
  webhook_ready : bool
}.
End WebhookHealthResponse.

(** [HTTPException(status_code=..., detail=...)] *)
Record HTTPException : Type := {
  status_code : Z;
  detail : string
}.

(** The dict the Zapier and generic endpoints return. *)
Module WebhookReply.
Record t : Type := {
  success : bool;
  message : string;
  memory_id : value;
  timestamp : string
}.
End WebhookReply.

(** A validated [MemoryResponse]. *)
Module MemoryResponse.
Record t : Type := {
  success : bool;
  message : string;
  memory_id : option string;
  timestamp : string;
  user_id : string
}.
End MemoryResponse.

(** An [Optional[str]] as a value. *)
Definition of_optional (o : option string) : value :=
  match o with
  | Some s => VStr s
  | None => VNone
  end.

(** [content[:50]]: strings and lists can be sliced, a dict rejects the
    slice as a key (with a [KeyError] instead from Python 3.12 on), nothing
    else is subscriptable. *)
Definition slice50 (content : value) : result value :=
  match content with
  | VStr s => Ok (VStr (str_take 50 s))
  | VList l => Ok (VList (firstn 50 l))
  | VDict _ => Raise (Exn TypeError "unhashable type: 'slice'")
  | _ => Raise (Exn TypeError
                  ("'" ++ type_name content ++ "' object is not subscriptable"))
  end.

(** The keys [create_memory] derives itself, in the order of the dict
    literal. *)
Definition derived_keys : list string :=
  ["category"; "day"; "month"; "year"; "client"; "project_type"; "device";
   "timestamp"; "source"; "webhook_received"].

(** The keys the Zapier endpoint never forwards as metadata. *)
Definition zapier_reserved : list string :=
  ["content"; "message"; "text"; "user_id"; "userId"; "category"].

(** The world after one more reading of the clock. *)
Definition tick (w : World) : World :=
  {| clock_reads := S (clock_reads w);
     add_calls := add_calls w;
     search_calls := search_calls w |}.

(** The world after the memory client received [c]. *)
Definition with_add (c : AddCall) (w : World) : World :=
  {| clock_reads := clock_reads w;
     add_calls := add_calls w ++ [c];
     search_calls := search_calls w |}.

Definition with_search (c : SearchCall) (w : World) : World :=
  {| clock_reads := clock_reads w;
     add_calls := add_calls w;
     search_calls := search_calls w ++ [c] |}.

(** [[{"role": "user", "content": content}]] *)
Definition user_message (content : value) : value :=
  VList [VDict [("role", VStr "user"); ("content", content)]].

(** The arguments of the health check's probe:
    [search("test", user_id=DEFAULT_USER_ID, limit=1)]. *)
Definition probe (DEFAULT_USER_ID : string) : SearchCall :=
  {| search_query := "test";
     search_user_id := DEFAULT_USER_ID;
     search_limit := 1 |}.

Section Server.

(** Process configuration and the services the handlers use. *)
Variable DEFAULT_USER_ID : string.
Variable clock : nat -> datetime.
Variable mem0_client : Mem0Client.
(** [str(body)] and [json.dumps(body, indent=2)] of the Python runtime. *)
Variable py_str : value -> string.
Variable json_dumps : value -> string.

(** [datetime.now()]: the next reading of the clock. *)
Definition now : M datetime :=
  fun w => (Ok (clock (clock_reads w)), tick w).

(** [await mem0_client.add(...)]: the client answers and has seen the
    call, whether it raises or not. *)
Definition mem0_add (c : AddCall) : M value :=
  fun w => (add mem0_client w c, with_add c w).

(** [await mem0_client.search(...)] *)
Definition mem0_search (c : SearchCall) : M value :=
  fun w => (search mem0_client w c, with_search c w).

(** The dict literal of [create_memory] (lines 105-116) and the merge of
    the caller's metadata (lines 119-120).  [d1] to [d5] are the five
    readings of the clock, in the order the literal evaluates them. *)
Definition full_metadata
  (category client project_type source : value)
  (d1 d2 d3 d4 d5 : datetime) (metadata : option Dict.t) : Dict.t :=
  let full :=
    [("category", category);
     ("day", VStr (strftime_Ymd d1));
     ("month", VStr (strftime_Ym d2));
     ("year", VStr (py_str_int (year d3)));
     ("client", client);
     ("project_type", project_type);
     ("device", VStr "webhook_api");
     ("timestamp", VStr (isoformat d4));
     ("source", source);
     ("webhook_received", VStr (isoformat d5))] in
  match metadata with
  | Some (kv :: md) => Dict.update full (kv :: md)
  | _ => full
  end.

(** [create_memory].  The [try ... except Exception: log; raise] around
    the body lets every exception through unchanged. *)
Definition create_memory
  (content user_id category : value) (metadata : option Dict.t)
  (client project_type source : value) : M MemoryResult.t :=
  d1 <<- now ;;
  d2 <<- now ;;
  d3 <<- now ;;
  d4 <<- now ;;
  d5 <<- now ;;
  let full := full_metadata category client project_type source
                d1 d2 d3 d4 d5 metadata in
  let messages := user_message content in
  result <<- mem0_add {| add_messages := messages;
                         add_user_id := user_id;
                         add_metadata := full;
                         add_output_format := "v1.1" |} ;;
  (* logger.info(f"Memory created for user {user_id}: {content[:50]}...") *)
  _ <<- lift (slice50 content) ;;
  memory_id <<- lift (extract_memory_id result) ;;
  ret {| MemoryResult.success := true;
         MemoryResult.memory_id := memory_id;
         MemoryResult.user_id := user_id;
         MemoryResult.content := content;
         MemoryResult.metadata := full |}.

(** The call of [create_memory] on a structured request (lines 252-260
    and 296-304). *)
Definition create_memory_of (r : MemoryWebhookRequest.t) : M MemoryResult.t :=
  create_memory
    (VStr (MemoryWebhookRequest.content r))
    (of_optional (MemoryWebhookRequest.user_id r))
    (of_optional (MemoryWebhookRequest.category r))
    (MemoryWebhookRequest.metadata r)
    (of_optional (MemoryWebhookRequest.client r))
    (of_optional (MemoryWebhookRequest.project_type r))
    (of_optional (MemoryWebhookRequest.source r)).

(** *** [webhook_batch_memories] *)

(** The [for] loop of lines 294-310, with the two accumulators. *)
Fixpoint batch_loop (memories : list MemoryWebhookRequest.t)
  (results : list MemoryResult.t) (errors : list BatchError.t)
  : M (list MemoryResult.t * list BatchError.t) :=
  match memories with
  | [] => ret (results, errors)
  | memory_req :: rest =>
      fun w =>
        match create_memory_of memory_req w with
        | (Ok result, w') =>
            batch_loop rest (results ++ [result]) errors w'
        | (Raise e, w') =>
            batch_loop rest results
              (errors ++
               [{| BatchError.content :=
                     str_take 50 (MemoryWebhookRequest.content memory_req);
                   BatchError.error := py_str_exn e |}]) w'
        end
  end.

Definition webhook_batch_memories (memories : list MemoryWebhookRequest.t)
  : M BatchResponse.t :=
  re <<- batch_loop memories [] [] ;;
  let results := fst re in
  let errors := snd re in
  t <<- now ;;
  ret {| BatchResponse.success := Nat.eqb (List.length errors) 0;
         BatchResponse.created := List.length results;
         BatchResponse.failed := List.length errors;
         BatchResponse.results := results;
         BatchResponse.errors :=
           match errors with [] => None | _ :: _ => Some errors end;
         BatchResponse.timestamp := isoformat t |}.

(** *** [health_check] *)

Definition health_check : M WebhookHealthResponse.t :=
  mem0_connected <<-
    try_except
      (_ <<- mem0_search (probe DEFAULT_USER_ID) ;;
       ret true)
      (fun _ => ret false) ;;
  t <<- now ;;
  ret {| WebhookHealthResponse.status :=
           if mem0_connected then "healthy" else "degraded";
         WebhookHealthResponse.timestamp := isoformat t;
         WebhookHealthResponse.mem0_connected := mem0_connected;
         WebhookHealthResponse.webhook_ready := true |}.

(** *** The Zapier and generic endpoints *)

(** What an endpoint extracts from a body before it calls
    [create_memory]. *)
Record Normalized : Type := {
  n_content : value;
  n_user_id : value;
  n_category : value;
  n_metadata : Dict.t
}.

(** [body.items()]; only a dict has the method. *)
Definition method_items (x : value) : result Dict.t :=
  match x with
  | VDict d => Ok d
  | _ => Raise (Exn AttributeError
                  ("'" ++ type_name x ++ "' object has no attribute 'items'"))
  end.

(** Lines 331-337 of [zapier_webhook].  The operands of [or] are
    evaluated from left to right and only as far as needed.  The
    comprehension keeps the items of [body] in their order; the keys of a
    dict are distinct, so no item overwrites another. *)
Definition zapier_normalize (body : value) : result Normalized :=
  c1 <- method_get body "content" VNone ;;
  content <-
    (if truthy c1 then Ok c1 else
     c2 <- method_get body "message" VNone ;;
     if truthy c2 then Ok c2 else
     c3 <- method_get body "text" VNone ;;
     if truthy c3 then Ok c3 else Ok (VStr (py_str body))) ;;
  u1 <- method_get body "user_id" VNone ;;
  user_id <-
    (if truthy u1 then Ok u1 else
     u2 <- method_get body "userId" VNone ;;
     if truthy u2 then Ok u2 else Ok (VStr DEFAULT_USER_ID)) ;;
  g1 <- method_get body "category" VNone ;;
  let category := if truthy g1 then g1 else VStr "zapier" in
  items <- method_items body ;;
  let metadata :=
    filter (fun kv => negb (str_in (fst kv) zapier_reserved)) items in
  Ok {| n_content := content;
        n_user_id := user_id;
        n_category := category;
        n_metadata := metadata |}.

(** Lines 370-377 and 380-383 of [generic_webhook]. *)
Definition generic_normalize (body : value) : result Normalized :=
  let content := json_dumps body in
  u1 <- method_get body "user_id" VNone ;;
  user_id <-
    (if truthy u1 then Ok u1 else
     u2 <- method_get body "userId" VNone ;;
     if truthy u2 then Ok u2 else
     u3 <- method_get body "user" VNone ;;
     if truthy u3 then Ok u3 else
     u4 <- method_get body "email" VNone ;;
     if truthy u4 then Ok u4 else Ok (VStr DEFAULT_USER_ID)) ;;
  Ok {| n_content := VStr ("Webhook data received: " ++ content);
        n_user_id := user_id;
        n_category := VStr "generic_webhook";
        n_metadata := [("raw_payload", body)] |}.

(** [try: m  except Exception as e: raise HTTPException(500, str(e))] *)
Definition or_http_500 {A : Type} (m : M A)
  : World -> (HTTPException + A) * World :=
  fun w =>
    match m w with
    | (Ok a, w') => (inr a, w')
    | (Raise e, w') =>
        (inl {| status_code := 500; detail := py_str_exn e |}, w')
    end.

(** [zapier_webhook], from the parsed body on. *)
Definition zapier_webhook (body : value)
  : World -> (HTTPException + WebhookReply.t) * World :=
  or_http_500
    (n <<- lift (zapier_normalize body) ;;
     result <<- create_memory (n_content n) (n_user_id n) (n_category n)
                  (Some (n_metadata n))
                  (VStr "zapier") (VStr "automation") (VStr "zapier_webhook") ;;
     t <<- now ;;
     ret {| WebhookReply.success := true;
            WebhookReply.message := "Memory created via Zapier";
            WebhookReply.memory_id := MemoryResult.memory_id result;
            WebhookReply.timestamp := isoformat t |}).

(** [generic_webhook], from the parsed body on. *)
Definition generic_webhook (body : value)
  : World -> (HTTPException + WebhookReply.t) * World :=
  or_http_500
    (n <<- lift (generic_normalize body) ;;
     result <<- create_memory (n_content n) (n_user_id n) (n_category n)
                  (Some (n_metadata n))
                  (VStr "generic") (VStr "webhook") (VStr "generic_webhook") ;;
     t <<- now ;;
     ret {| WebhookReply.success := true;
            WebhookReply.message := "Data stored as memory";
            WebhookReply.memory_id := MemoryResult.memory_id result;
            WebhookReply.timestamp := isoformat t |}).

(** *** [webhook_memory_endpoint] *)

(** What pydantic makes of a [MemoryResponse] whose [memory_id] is neither
    [None] nor a [str], or whose [user_id] is [None]: a coerced response or
    a [ValidationError], depending on its version. *)
Variable MemoryResponse_other :
  value -> string -> option string -> result MemoryResponse.t.

(** [MemoryResponse(success=True, message="Memory created successfully",
    memory_id=..., timestamp=..., user_id=...)]: values of the declared
    types are kept as they are. *)
Definition MemoryResponse_new
  (memory_id : value) (timestamp : string) (user_id : option string)
  : result MemoryResponse.t :=
  match memory_id, user_id with
  | VNone, Some u =>
      Ok {| MemoryResponse.success := true;
            MemoryResponse.message := "Memory created successfully";
            MemoryResponse.memory_id := None;
            MemoryResponse.timestamp := timestamp;
            MemoryResponse.user_id := u |}
  | VStr i, Some u =>
      Ok {| MemoryResponse.success := true;
            MemoryResponse.message := "Memory created successfully";
            MemoryResponse.memory_id := Some i;
            MemoryResponse.timestamp := timestamp;
            MemoryResponse.user_id := u |}
  | _, _ => MemoryResponse_other memory_id timestamp user_id
  end.

(** [webhook_memory_endpoint], from the validated request on; the
    signature header is not used. *)
Definition webhook_memory_endpoint (request : MemoryWebhookRequest.t)
  : World -> (HTTPException + MemoryResponse.t) * World :=
  or_http_500
    (result <<- create_memory_of request ;;
     t <<- now ;;
     lift (MemoryResponse_new (MemoryResult.memory_id result) (isoformat t)
             (MemoryWebhookRequest.user_id request))).

End Server.

(** ** Signature verification *)

Definition bytes : Type := list Byte.byte.

(** [hashlib.sha256] (FIPS 180-4) on 32-bit words held in [Z]; the
    additions wrap around at [2^32]. *)
Module Sha256.

Local Open Scope Z_scope.

Definition add32 (a b : Z) : Z := (a + b) mod 2 ^ 32.

Definition rotr (n x : Z) : Z :=
  Z.lor (Z.shiftr x n) (Z.shiftl x (32 - n) mod 2 ^ 32).

Definition Ch (x y z : Z) : Z :=
  Z.lxor (Z.land x y) (Z.land (Z.lxor x 0xffffffff) z).

Definition Maj (x y z : Z) : Z :=
  Z.lxor (Z.land x y) (Z.lxor (Z.land x z) (Z.land y z)).

Definition Sigma0 (x : Z) : Z :=
  Z.lxor (rotr 2 x) (Z.lxor (rotr 13 x) (rotr 22 x)).

Definition Sigma1 (x : Z) : Z :=
  Z.lxor (rotr 6 x) (Z.lxor (rotr 11 x) (rotr 25 x)).

Definition sigma0 (x : Z) : Z :=
  Z.lxor (rotr 7 x) (Z.lxor (rotr 18 x) (Z.shiftr x 3)).

Definition sigma1 (x : Z) : Z :=
  Z.lxor (rotr 17 x) (Z.lxor (rotr 19 x) (Z.shiftr x 10)).

(** The first [n] prime numbers are found among the numbers from 2 to
    311 by trial division. *)
Definition is_prime (n : nat) : bool :=
  forallb (fun d => negb (Nat.eqb (Nat.modulo n d) 0)) (seq 2 (n - 2)).

Definition primes (n : nat) : list Z :=
  map Z.of_nat (firstn n (filter is_prime (seq 2 310))).

(** The integer cube root of [n], for [n] below [2^108], by bisection. *)
Fixpoint cbrt_bits (bit : nat) (r n : Z) : Z :=
  match bit with
  | O => r
  | S bit' =>
      let r' := r + 2 ^ Z.of_nat bit' in
      cbrt_bits bit' (if r' * r' * r' <=? n then r' else r) n
  end.

Definition cbrt (n : Z) : Z := cbrt_bits 36 0 n.

(** The round constants: the first 32 bits of the fractional parts of the
    cube roots of the first 64 primes. *)
Definition K : list Z :=
  Eval vm_compute in
    map (fun p => cbrt (Z.shiftl p 96) mod 2 ^ 32) (primes 64).

(** The initial hash value: the first 32 bits of the fractional parts of
    the square roots of the first 8 primes. *)
Definition H0 : list Z :=
  Eval vm_compute in
    map (fun p => Z.sqrt (Z.shiftl p 64) mod 2 ^ 32) (primes 8).

Definition Z_of_byte (b : Byte.byte) : Z := Z.of_N (Byte.to_N b).

Definition byte_of_Z (z : Z) : Byte.byte :=
  match Byte.of_N (Z.to_N (z mod 256)) with
  | Some b => b
  | None => Byte.x00
  end.

(** [n] as [len] bytes, most significant first. *)
Fixpoint be_bytes (len : nat) (n : Z) : list Z :=
  match len with
  | O => []
  | S len' => (Z.shiftr n (8 * Z.of_nat len')) mod 256 :: be_bytes len' n
  end.

(** The message, the byte [0x80], zero bytes up to 56 modulo 64, and the
    length of the message in bits on eight bytes. *)
Definition pad (msg : list Z) : list Z :=
  let len := Z.of_nat (List.length msg) in
  msg ++ [0x80] ++ repeat 0 (Z.to_nat ((55 - len) mod 64))
      ++ be_bytes 8 (8 * len).

(** Big-endian 32-bit words of a byte sequence. *)
Fixpoint words (bs : list Z) : list Z :=
  match bs with
  | a :: b :: c :: d :: rest =>
      (Z.shiftl a 24 + Z.shiftl b 16 + Z.shiftl c 8 + d) :: words rest
  | _ => []
  end.

(** The message schedule: [n] more words after those of [w]. *)
Fixpoint schedule (n : nat) (w : list Z) : list Z :=
  match n with
  | O => w
  | S n' =>
      let t := List.length w in
      let x := add32 (add32 (sigma1 (nth (t - 2) w 0)) (nth (t - 7) w 0))
                     (add32 (sigma0 (nth (t - 15) w 0)) (nth (t - 16) w 0)) in
      schedule n' (w ++ [x])
  end.

Definition round (s : list Z) (kw : Z * Z) : list Z :=
  match s with
  | [a; b; c; d; e; f; g; h] =>
      let t1 := add32 (add32 (add32 h (Sigma1 e)) (Ch e f g))
                      (add32 (fst kw) (snd kw)) in
      let t2 := add32 (Sigma0 a) (Maj a b c) in
      [add32 t1 t2; a; b; c; add32 d t1; e; f; g]
  | _ => s
  end.

(** One 64-byte block, given as its sixteen words. *)
Definition compress (h : list Z) (block : list Z) : list Z :=
  let w := schedule 48 block in
  let s := fold_left round (combine K w) h in
  map (fun p => add32 (fst p) (snd p)) (combine h s).

(** The blocks of a padded message, sixteen words each. *)
Fixpoint blocks (fuel : nat) (ws : list Z) : list (list Z) :=
  match fuel, ws with
  | S fuel', _ :: _ => firstn 16 ws :: blocks fuel' (skipn 16 ws)
  | _, _ => []
  end.

Definition digest (msg : bytes) : bytes :=
  let ws := words (pad (map Z_of_byte msg)) in
  let h := fold_left compress (blocks (List.length ws) ws) H0 in
  map byte_of_Z (flat_map (be_bytes 4) h).

Definition block_size : nat := 64.

End Sha256.

Definition xor_byte (c : Z) (b : Byte.byte) : Byte.byte :=
  Sha256.byte_of_Z (Z.lxor (Sha256.Z_of_byte b) c).

(** [hmac.new(key, msg, hashlib.sha256).digest()] (RFC 2104): a key longer
    than a block is hashed first, then padded with zero bytes. *)
Definition hmac_sha256 (key msg : bytes) : bytes :=
  let key := if Nat.ltb Sha256.block_size (List.length key)
             then Sha256.digest key else key in
  let key := key ++ repeat Byte.x00 (Sha256.block_size - List.length key) in
  let inner := Sha256.digest (map (xor_byte 0x36) key ++ msg) in
  Sha256.digest (map (xor_byte 0x5c) key ++ inner).

Definition hex_digit (n : Z) : ascii :=
  ascii_of_nat (Z.to_nat (if Z.ltb n 10 then 48 + n else 87 + n)).

(** [.hexdigest()]: two lower-case hexadecimal digits per byte. *)
Fixpoint hexdigest (bs : bytes) : string :=
  match bs with
  | [] => EmptyString
  | b :: bs' =>
      let n := Sha256.Z_of_byte b in
      String (hex_digit (n / 16)) (String (hex_digit (n mod 16)) (hexdigest bs'))
  end.

(** [s.encode()]: UTF-8; a character below 128 is one byte, a character
    from 128 to 255 is two. *)
Fixpoint encode (s : string) : bytes :=
  match s with
  | EmptyString => []
  | String c s' =>
      let n := Z.of_nat (nat_of_ascii c) in
      if Z.ltb n 128 then Sha256.byte_of_Z n :: encode s'
      else Sha256.byte_of_Z (192 + n / 64)
           :: Sha256.byte_of_Z (128 + n mod 64) :: encode s'
  end.

Fixpoint is_ascii_str (s : string) : bool :=
  match s with
  | EmptyString => true
  | String c s' => Nat.ltb (nat_of_ascii c) 128 && is_ascii_str s'
  end.

(** [hmac.compare_digest(a, b)] on two [str]: it refuses characters
    outside ASCII, and otherwise tells whether the strings are equal. *)
Definition compare_digest (a b : string) : result bool :=
  if is_ascii_str a && is_ascii_str b then Ok (String.eqb a b)
  else Raise (Exn TypeError
                "comparing strings with non-ASCII characters is not supported").

Definition verify_webhook_signature
  (payload : bytes) (signature secret : string) : result bool :=
  if String.eqb secret EmptyString || String.eqb secret "your-webhook-secret-here"
  then Ok true
  else
    let expected_signature := hexdigest (hmac_sha256 (encode secret) payload) in
    compare_digest signature expected_signature.

(** ** Vocabulary of the properties *)

Definition is_digit (c : ascii) : bool :=
  Nat.leb 48 (nat_of_ascii c) && Nat.leb (nat_of_ascii c) 57.

(** [shape pat s]: [s] has the length of [pat], a digit wherever [pat] has
    a ["9"] and the character of [pat] everywhere else. *)
Fixpoint shape (pat s : string) : bool :=
  match pat, s with
  | EmptyString, EmptyString => true
  | String p pat', String c s' =>
      (if Ascii.eqb p "9" then is_digit c else Ascii.eqb p c) && shape pat' s'
  | _, _ => false
  end.

(** An ISO-8601 local time as [isoformat] writes it, with or without
    microseconds. *)
Definition is_isoformat (s : string) : bool :=
  shape "9999-99-99T99:99:99" s || shape "9999-99-99T99:99:99.999999" s.

(** The keys named as derived metadata in the description of the
    enricher. *)
Definition listed_derived_keys : list string :=
  ["day"; "month"; "year"; "device"; "timestamp"; "webhook_received"; "source"].

(** Is [k] a key of the caller's metadata? *)
Definition supplied (k : string) (metadata : option Dict.t) : bool :=
  match metadata with
  | Some md => Dict.mem k md
  | None => false
  end.

(** What [d.get(k)] evaluates to. *)
Definition get_or_none (k : string) (d : Dict.t) : value :=
  match Dict.get k d with
  | Some v => v
  | None => VNone
  end.

(** The first of the keys [ks] that is present in [d], whatever its
    value. *)
Fixpoint first_present (ks : list string) (d : Dict.t) : option value :=
  match ks with
  | [] => None
  | k :: ks' =>
      match Dict.get k d with
      | Some v => Some v
      | None => first_present ks' d
      end
  end.

(** The first of the keys [ks] that is present in [d] with a true value,
    and that value. *)
Fixpoint first_truthy (ks : list string) (d : Dict.t)
  : option (string * value) :=
  match ks with
  | [] => None
  | k :: ks' =>
      match Dict.get k d with
      | Some v => if truthy v then Some (k, v) else first_truthy ks' d
      | None => first_truthy ks' d
      end
  end.

Definition content_aliases : list string := ["content"; "message"; "text"].
Definition user_id_aliases : list string := ["user_id"; "userId"].

(** The keys whose values the Zapier extraction actually used. *)
Definition consumed (d : Dict.t) : list string :=
  let used ks := match first_truthy ks d with
                 | Some (k, _) => [k]
                 | None => []
                 end in
  used content_aliases ++ used user_id_aliases ++ used ["category"].

(** The flexible normalizer as described with "first present value". *)
Definition zapier_first_present
  (DEFAULT_USER_ID : string) (py_str : value -> string) (d : Dict.t) : Prop :=
  exists n,
    zapier_normalize DEFAULT_USER_ID py_str (VDict d) = Ok n /\
    n_content n = match first_present content_aliases d with
                  | Some v => v
                  | None => VStr (py_str (VDict d))
                  end /\
    n_user_id n = match first_present user_id_aliases d with
                  | Some v => v
                  | None => VStr DEFAULT_USER_ID
                  end /\
    (Dict.get "category" d = None -> n_category n = VStr "zapier").

(** The flexible normalizer as described with "every key not consumed
    becomes metadata". *)
Definition zapier_keeps_unconsumed
  (DEFAULT_USER_ID : string) (py_str : value -> string) (d : Dict.t) : Prop :=
  exists n,
    zapier_normalize DEFAULT_USER_ID py_str (VDict d) = Ok n /\
    forall k v,
      Dict.get k d = Some v ->
      str_in k (consumed d) = false ->
      Dict.get k (n_metadata n) = Some v.

(** The submissions of a batch one after the other, each in the world the
    previous one left: the outcome of every entry and the final world. *)
Fixpoint run_each (clock : nat -> datetime) (mem0_client : Mem0Client)
  (memories : list MemoryWebhookRequest.t) (w : World)
  : list (MemoryWebhookRequest.t * result MemoryResult.t) * World :=
  match memories with
  | [] => ([], w)
  | r :: rest =>
      let (o, w') := create_memory_of clock mem0_client r w in
      let (os, w'') := run_each clock mem0_client rest w' in
      ((r, o) :: os, w'')
  end.

Fixpoint successes (os : list (MemoryWebhookRequest.t * result MemoryResult.t))
  : list MemoryResult.t :=
  match os with
  | [] => []
  | (_, Ok res) :: os' => res :: successes os'
  | (_, Raise _) :: os' => successes os'
  end.

(** A failure is reported as the first 50 characters of the content and
    the text of the exception. *)
Fixpoint failures (os : list (MemoryWebhookRequest.t * result MemoryResult.t))
  : list BatchError.t :=
  match os with
  | [] => []
  | (_, Ok _) :: os' => failures os'
  | (r, Raise e) :: os' =>
      {| BatchError.content := str_take 50 (MemoryWebhookRequest.content r);
         BatchError.error := exc_msg e |} :: failures os'
  end.

(** Is a signing secret configured?  The empty secret and the placeholder
    of the configuration count as none. *)
Definition secret_configured (secret : string) : bool :=
  negb (String.eqb secret EmptyString
        || String.eqb secret "your-webhook-secret-here").

(** The [i]-th reading of the clock from the world [w] on. *)
Definition reading (clock : nat -> datetime) (w : World) (i : nat) : datetime :=
  clock (i + clock_reads w).

(** The metadata [create_memory] builds when it starts in the world [w]. *)
Definition enriched (clock : nat -> datetime)
  (category : value) (metadata : option Dict.t)
  (client project_type source : value) (w : World) : Dict.t :=
  full_metadata category client project_type source
    (reading clock w 0) (reading clock w 1) (reading clock w 2)
    (reading clock w 3) (reading clock w 4) metadata.

(** The call the memory client receives from [create_memory]. *)
Definition submission (clock : nat -> datetime)
  (content user_id category : value) (metadata : option Dict.t)
  (client project_type source : value) (w : World) : AddCall :=
  {| add_messages := user_message content;
     add_user_id := user_id;
     add_metadata := enriched clock category metadata client project_type source w;
     add_output_format := "v1.1" |}.

(** The years [1000] to [9999]. *)
Definition four_digit_years : list Z :=
  map Z.of_nat (seq 1000 (Z.to_nat 9000)).

(** What the flexible normalizer extracts from a JSON object. *)
Definition zapier_content (py_str : value -> string) (d : Dict.t) : value :=
  match first_truthy content_aliases d with
  | Some (_, v) => v
  | None => VStr (py_str (VDict d))
  end.

Definition zapier_user_id (DEFAULT_USER_ID : string) (d : Dict.t) : value :=
  match first_truthy user_id_aliases d with
  | Some (_, v) => v
  | None => VStr DEFAULT_USER_ID
  end.

Definition zapier_category (d : Dict.t) : value :=
  match first_truthy ["category"] d with
  | Some (_, v) => v
  | None => VStr "zapier"
  end.

Definition zapier_metadata (d : Dict.t) : Dict.t :=
  filter (fun kv => negb (str_in (fst kv) zapier_reserved)) d.

(** The user the generic normalizer resolves for a JSON object. *)
Definition generic_user_id (DEFAULT_USER_ID : string) (d : Dict.t) : value :=
  match first_truthy ["user_id"; "userId"; "user"; "email"] d with
  | Some (_, v) => v
  | None => VStr DEFAULT_USER_ID
  end.

(** A list whose first element is an object. *)
Definition first_is_object (r : value) : bool :=
  match r with
  | VList (VDict _ :: _) => true
  | _ => false
  end.

(** A lower-case hexadecimal digit. *)
Definition is_lower_hex (c : ascii) : bool :=
  is_digit c || (Nat.leb 97 (nat_of_ascii c) && Nat.leb (nat_of_ascii c) 102).

Fixpoint all_lower_hex (s : string) : bool :=
  match s with
  | EmptyString => true
  | String c s' => is_lower_hex c && all_lower_hex s'
  end.

(** The calls the Zapier and the generic endpoint hand to the memory
    client for a JSON object, when they start in the world [w]. *)
Definition zapier_call (DEFAULT_USER_ID : string) (clock : nat -> datetime)
  (py_str : value -> string) (d : Dict.t) (w : World) : AddCall :=
  submission clock (zapier_content py_str d)
    (zapier_user_id DEFAULT_USER_ID d) (zapier_category d)
    (Some (zapier_metadata d))
    (VStr "zapier") (VStr "automation") (VStr "zapier_webhook") w.

Definition generic_call (DEFAULT_USER_ID : string) (clock : nat -> datetime)
  (json_dumps : value -> string) (d : Dict.t) (w : World) : AddCall :=
  submission clock
    (VStr ("Webhook data received: " ++ json_dumps (VDict d)))
    (generic_user_id DEFAULT_USER_ID d) (VStr "generic_webhook")
    (Some [("raw_payload", VDict d)])
    (VStr "generic") (VStr "webhook") (VStr "generic_webhook") w.

(** The call [create_memory] makes for a structured request. *)
Definition request_call (clock : nat -> datetime)
  (r : MemoryWebhookRequest.t) (w : World) : AddCall :=
  submission clock
    (VStr (MemoryWebhookRequest.content r))
    (of_optional (MemoryWebhookRequest.user_id r))
    (of_optional (MemoryWebhookRequest.category r))
    (MemoryWebhookRequest.metadata r)
    (of_optional (MemoryWebhookRequest.client r))
    (of_optional (MemoryWebhookRequest.project_type r))
    (of_optional (MemoryWebhookRequest.source r)) w.

(** ** Stand-ins for the services, to run the handlers on examples *)

Module Fake.

Definition DEFAULT_USER_ID : string := "quinn_may".

(** A clock that advances one second per reading. *)
Definition clock (n : nat) : datetime :=
  {| year := 2025; month := 3; day := 9;
     hour := 14; minute := 5; second := Z.of_nat (Nat.modulo n 60);
     microsecond := 250 |}.

(** A client whose second [add] is rejected and whose other calls
    succeed with a fresh memory. *)
Definition client : Mem0Client :=
  {| add := fun w c =>
       if Nat.eqb (List.length (add_calls w)) 1
       then Raise (Exn (OtherException "APIError") "remote rejected")
       else Ok (VDict [("results", VList [VDict [("id", VStr "m1")]])]);
     search := fun _ _ => Ok (VDict [("results", VList [])]) |}.

(** A client that is down. *)
Definition broken_client : Mem0Client :=
  {| add := fun _ _ => Raise (Exn (OtherException "ConnectError") "unreachable");
     search := fun _ _ => Raise (Exn (OtherException "ConnectError") "unreachable") |}.

(** A client that stores the message and extracts no memory from it. *)
Definition quiet_client : Mem0Client :=
  {| add := fun _ _ => Ok (VDict [("results", VList [])]);
     search := fun _ _ => Ok (VDict [("results", VList [])]) |}.

(** A rendering that only names the type; the examples do not depend on
    the text. *)
Definition py_str (v : value) : string := "<" ++ type_name v ++ ">".

Definition request (content : string) (metadata : option Dict.t)
  : MemoryWebhookRequest.t :=
  {| MemoryWebhookRequest.content := content;
     MemoryWebhookRequest.user_id := Some DEFAULT_USER_ID;
     MemoryWebhookRequest.category := Some "webhook";
     MemoryWebhookRequest.metadata := metadata;
     MemoryWebhookRequest.client := Some "webhook";
     MemoryWebhookRequest.project_type := Some "webhook_post";
     MemoryWebhookRequest.source := Some "webhook" |}.

(** A pydantic that rejects every value outside the declared type. *)
Definition strict_response (memory_id : value) (timestamp : string)
  (user_id : option string) : result MemoryResponse.t :=
  Raise (Exn (OtherException "ValidationError")
           "1 validation error for MemoryResponse").

(** A client that answers every [add] with [answer]. *)
Definition answering (answer : value) : Mem0Client :=
  {| add := fun _ _ => Ok answer;
     search := fun _ _ => Ok (VDict [("results", VList [])]) |}.

(** A rendering for the examples of [json.dumps]. *)
Definition json_dumps (v : value) : string := "<" ++ type_name v ++ ">".

End Fake.

(** * Properties *)

(** ** Dictionaries *)

Module DictFacts.

Lemma get_set_same k v d : Dict.get k (Dict.set k v d) = Some v.
Proof.
  induction d as [|[k' v'] d IH]; simpl.
  - now rewrite String.eqb_refl.
  - destruct (String.eqb k k') eqn:E; simpl; rewrite E; auto.
Qed.

Lemma get_set_other k k' v d :
  k <> k' -> Dict.get k (Dict.set k' v d) = Dict.get k d.
Proof.
  intros Hne. apply String.eqb_neq in Hne.
  induction d as [|[k2 v2] d IH]; simpl.
  - now rewrite Hne.
  - destruct (String.eqb k' k2) eqn:E; simpl.
    + apply String.eqb_eq in E. subst k2. now rewrite Hne.
    + now rewrite IH.
Qed.

Lemma get_In_keys k v d : Dict.get k d = Some v -> In k (Dict.keys d).
Proof.
  induction d as [|[k' v'] d IH]; simpl; [discriminate|].
  destruct (String.eqb k k') eqn:E.
  - apply String.eqb_eq in E. auto.
  - auto.
Qed.

Lemma get_None_keys k d : Dict.get k d = None <-> ~ In k (Dict.keys d).
Proof.
  induction d as [|[k' v'] d IH]; simpl.
  - tauto.
  - destruct (String.eqb k k') eqn:E.
    + apply String.eqb_eq in E. subst k'. split; [discriminate|].
      intros H. exfalso. apply H. now left.
    + apply String.eqb_neq in E. rewrite IH. split.
      * intros H [Heq|Hin]; [congruence | tauto].
      * tauto.
Qed.

Lemma mem_set k k' v d :
  Dict.mem k d = true -> Dict.mem k (Dict.set k' v d) = true.
Proof.
  unfold Dict.mem. destruct (string_dec k k') as [->|Hne].
  - now rewrite get_set_same.
  - now rewrite get_set_other.
Qed.

(** A key the other dict does not have keeps its binding. *)
Lemma get_update_absent k d other :
  Dict.get k other = None ->
  Dict.get k (Dict.update d other) = Dict.get k d.
Proof.
  unfold Dict.update. revert d.
  induction other as [|[k' v'] other IH]; intros d H; simpl in *.
  - reflexivity.
  - destruct (String.eqb k k') eqn:E; [discriminate|].
    rewrite IH by assumption. apply get_set_other.
    now apply String.eqb_neq.
Qed.

(** A binding of the other dict is the binding of the updated one. *)
Lemma get_update_present k v d other :
  Dict.wf other ->
  Dict.get k other = Some v ->
  Dict.get k (Dict.update d other) = Some v.
Proof.
  unfold Dict.wf. revert d.
  induction other as [|[k' v'] other IH]; intros d Hwf H; simpl in *.
  - discriminate.
  - inversion Hwf as [|? ? Hnotin Hwf']; subst.
    destruct (String.eqb k k') eqn:E.
    + apply String.eqb_eq in E. subst k'. injection H as ->.
      change (Dict.get k (Dict.update (Dict.set k v d) other) = Some v).
      rewrite get_update_absent.
      * apply get_set_same.
      * now apply get_None_keys.
    + now apply IH.
Qed.

Lemma mem_update k d other :
  Dict.mem k d = true -> Dict.mem k (Dict.update d other) = true.
Proof.
  unfold Dict.update. revert d.
  induction other as [|[k' v'] other IH]; intros d H; simpl.
  - assumption.
  - apply IH. now apply mem_set.
Qed.

Lemma get_filter (p : string -> bool) k d :
  Dict.get k (filter (fun kv => p (fst kv)) d)
  = if p k then Dict.get k d else None.
Proof.
  induction d as [|[k' v'] d IH]; simpl.
  - now destruct (p k).
  - destruct (p k') eqn:Hp; simpl.
    + destruct (String.eqb k k') eqn:E.
      * apply String.eqb_eq in E. subst k'. now rewrite Hp.
      * exact IH.
    + destruct (String.eqb k k') eqn:E.
      * apply String.eqb_eq in E. subst k'. rewrite Hp in *. exact IH.
      * exact IH.
Qed.

End DictFacts.

(** ** Rendering of dates *)

Lemma is_digit_digit n : is_digit (digit n) = true.
Proof.
  unfold digit.
  assert (H : (0 <= n mod 10 < 10)%Z) by (apply Z.mod_pos_bound; lia).
  assert (Hm : (Z.to_nat (n mod 10) < 10)%nat) by lia.
  generalize dependent (Z.to_nat (n mod 10)). intros m Hm.
  do 10 (destruct m as [|m]; [reflexivity|]). lia.
Qed.

Lemma shape_digit n pat s :
  shape pat s = true -> shape (String "9" pat) (String (digit n) s) = true.
Proof.
  intros H. cbn [shape]. now rewrite Ascii.eqb_refl, is_digit_digit, H.
Qed.

Lemma shape_sep (c : ascii) pat s :
  Ascii.eqb c "9" = false ->
  shape pat s = true -> shape (String c pat) (String c s) = true.
Proof.
  intros Hc H. cbn [shape]. now rewrite Hc, Ascii.eqb_refl, H.
Qed.

Ltac shape_steps :=
  repeat first [ apply shape_digit
               | apply shape_sep; [reflexivity|]
               | reflexivity ].

Lemma strftime_Ymd_shape d : shape "9999-99-99" (strftime_Ymd d) = true.
Proof.
  unfold strftime_Ymd, pad4, pad2. cbn [append]. shape_steps.
Qed.

Lemma strftime_Ym_shape d : shape "9999-99" (strftime_Ym d) = true.
Proof.
  unfold strftime_Ym, pad4, pad2. cbn [append]. shape_steps.
Qed.

Lemma isoformat_shape d : is_isoformat (isoformat d) = true.
Proof.
  unfold is_isoformat, isoformat, strftime_Ymd, pad6, pad4, pad2.
  destruct (Z.eqb (microsecond d) 0); cbn [append].
  - apply orb_true_intro. left. shape_steps.
  - apply orb_true_intro. right. shape_steps.
Qed.

Lemma py_str_int_four_digits y :
  (1000 <= y <= 9999)%Z -> py_str_int y = pad4 y.
Proof.
  intros Hy.
  assert (Hall : forallb (fun y => String.eqb (py_str_int y) (pad4 y))
                   four_digit_years = true) by (vm_compute; reflexivity).
  rewrite forallb_forall in Hall. apply String.eqb_eq, Hall.
  unfold four_digit_years. rewrite <- (Z2Nat.id y) by lia.
  apply in_map, in_seq. lia.
Qed.

Lemma year_shape d :
  valid_datetime d -> shape "9999" (py_str_int (year d)) = true.
Proof.
  intros [Hy _]. rewrite py_str_int_four_digits by exact Hy.
  unfold pad4, pad2. shape_steps.
Qed.

(** ** [create_memory] *)

Section CreateMemory.

Variable clock : nat -> datetime.
Variable mem0_client : Mem0Client.

Lemma iter_tick n w :
  Nat.iter n tick w =
  {| clock_reads := n + clock_reads w;
     add_calls := add_calls w;
     search_calls := search_calls w |}.
Proof.
  induction n as [|n IH]; simpl.
  - now destruct w.
  - now rewrite IH.
Qed.

(** [create_memory] reads the clock five times, hands one call to the
    client, and returns what the slicing of the content and the
    extraction of the identifier let through. *)
Lemma create_memory_run content user_id category metadata
  client project_type source w :
  let w5 := Nat.iter 5 tick w in
  let call := submission clock content user_id category metadata
                client project_type source w in
  create_memory clock mem0_client content user_id category metadata
    client project_type source w
  = (result <- add mem0_client w5 call ;;
     _ <- slice50 content ;;
     memory_id <- extract_memory_id result ;;
     Ok {| MemoryResult.success := true;
           MemoryResult.memory_id := memory_id;
           MemoryResult.user_id := user_id;
           MemoryResult.content := content;
           MemoryResult.metadata := add_metadata call |},
     with_add call w5).
Proof.
  unfold create_memory, mbind, now, mem0_add, lift, ret.
  cbn [Nat.iter]. unfold submission, enriched, reading. cbn [tick clock_reads Nat.add].
  destruct (add mem0_client _ _) as [res|e]; cbn [bind]; [|reflexivity].
  destruct (slice50 content) as [s|e]; cbn [bind]; [|reflexivity].
  destruct (extract_memory_id res) as [i|e]; cbn [bind]; reflexivity.
Qed.

Lemma create_memory_add_calls content user_id category metadata
  client project_type source w :
  add_calls (snd (create_memory clock mem0_client content user_id category
                    metadata client project_type source w))
  = add_calls w ++ [submission clock content user_id category metadata
                      client project_type source w].
Proof.
  rewrite create_memory_run. cbn [snd with_add add_calls].
  now rewrite iter_tick.
Qed.

Lemma create_memory_result_metadata content user_id category metadata
  client project_type source w res :
  fst (create_memory clock mem0_client content user_id category
         metadata client project_type source w) = Ok res ->
  MemoryResult.metadata res
  = enriched clock category metadata client project_type source w.
Proof.
  rewrite create_memory_run. cbn [fst]. intros Hres.
  destruct (add mem0_client _ _) as [a|e]; cbn [bind] in Hres;
    [|discriminate].
  destruct (slice50 _) as [s|e]; cbn [bind] in Hres; [|discriminate].
  destruct (extract_memory_id a) as [i|e]; cbn [bind] in Hres;
    [|discriminate].
  injection Hres as <-. reflexivity.
Qed.

End CreateMemory.

(** ** The enriched metadata *)

Section Enrichment.

Variable clock : nat -> datetime.
Variable mem0_client : Mem0Client.

Variables category client project_type source : value.
Variables d1 d2 d3 d4 d5 : datetime.

Local Abbreviation full_of md :=
  (full_metadata category client project_type source d1 d2 d3 d4 d5 md).

Lemma supplied_false k md :
  supplied k (Some md) = false -> Dict.get k md = None.
Proof.
  unfold supplied, Dict.mem. now destruct (Dict.get k md).
Qed.

(** A key the caller does not supply keeps the derived binding. *)
Lemma full_metadata_unsupplied k metadata :
  supplied k metadata = false ->
  Dict.get k (full_of metadata) = Dict.get k (full_of None).
Proof.
  intros H. destruct metadata as [[|kv md]|]; try reflexivity.
  unfold full_metadata. apply DictFacts.get_update_absent.
  now apply supplied_false.
Qed.

(** A binding the caller supplies is the binding of the result. *)
Lemma full_metadata_supplied k v md :
  Dict.wf md ->
  Dict.get k md = Some v ->
  Dict.get k (full_of (Some md)) = Some v.
Proof.
  intros Hwf H. destruct md as [|kv md]; [discriminate|].
  unfold full_metadata. now apply DictFacts.get_update_present.
Qed.

Lemma full_metadata_mem k metadata :
  In k derived_keys -> Dict.mem k (full_of metadata) = true.
Proof.
  intros Hin.
  assert (Hbase : Dict.mem k (full_of None) = true).
  { unfold derived_keys in Hin. simpl in Hin.
    repeat (destruct Hin as [<-|Hin]; [reflexivity|]). contradiction. }
  destruct metadata as [[|kv md]|]; try exact Hbase.
  unfold full_metadata. apply DictFacts.mem_update. exact Hbase.
Qed.

End Enrichment.

Section EnrichmentClaims.

Variable clock : nat -> datetime.
Variable mem0_client : Mem0Client.

Lemma listed_keys_derived k : In k listed_derived_keys -> In k derived_keys.
Proof.
  unfold listed_derived_keys, derived_keys. simpl. intuition.
Qed.

(** C1.  On a structured request with non-empty content, the metadata
    [create_memory] hands to the memory client (and returns) has the
    derived keys day, month, year, device, timestamp, webhook_received
    and source, and every key of the caller's metadata with the caller's
    value, also when the key is a derived one.  Where the caller does not
    supply the key: day reads YYYY-MM-DD, month YYYY-MM, year YYYY, the
    two timestamps are ISO-8601, device is the fixed tag and source the
    request's source. *)
Theorem enriched_metadata_derived_and_caller_keys
  (r : MemoryWebhookRequest.t) (w : World) :
  MemoryWebhookRequest.content r <> EmptyString ->
  (forall n, valid_datetime (clock n)) ->
  (forall md, MemoryWebhookRequest.metadata r = Some md -> Dict.wf md) ->
  let metadata := MemoryWebhookRequest.metadata r in
  let full :=
    enriched clock
      (of_optional (MemoryWebhookRequest.category r)) metadata
      (of_optional (MemoryWebhookRequest.client r))
      (of_optional (MemoryWebhookRequest.project_type r))
      (of_optional (MemoryWebhookRequest.source r)) w in
  let out := create_memory_of clock mem0_client r w in
  (exists call,
      add_calls (snd out) = add_calls w ++ [call] /\
      add_metadata call = full) /\
  (forall res, fst out = Ok res -> MemoryResult.metadata res = full) /\
  (forall k, In k listed_derived_keys -> Dict.mem k full = true) /\
  (forall md k v,
      metadata = Some md -> Dict.get k md = Some v ->
      Dict.get k full = Some v) /\
  (supplied "day" metadata = false ->
   exists s, Dict.get "day" full = Some (VStr s) /\
             shape "9999-99-99" s = true) /\
  (supplied "month" metadata = false ->
   exists s, Dict.get "month" full = Some (VStr s) /\
             shape "9999-99" s = true) /\
  (supplied "year" metadata = false ->
   exists s, Dict.get "year" full = Some (VStr s) /\
             shape "9999" s = true) /\
  (supplied "device" metadata = false ->
   Dict.get "device" full = Some (VStr "webhook_api")) /\
  (supplied "timestamp" metadata = false ->
   exists s, Dict.get "timestamp" full = Some (VStr s) /\
             is_isoformat s = true) /\
  (supplied "webhook_received" metadata = false ->
   exists s, Dict.get "webhook_received" full = Some (VStr s) /\
             is_isoformat s = true) /\
  (supplied "source" metadata = false ->
   Dict.get "source" full
   = Some (of_optional (MemoryWebhookRequest.source r))).
Proof.
  intros _ Hclock Hwf metadata full out.
  split; [|split; [|split; [|split]]].
  - eexists. split; [apply create_memory_add_calls | reflexivity].
  - intros res Hres. now apply create_memory_result_metadata in Hres.
  - intros k Hk. apply full_metadata_mem. now apply listed_keys_derived.
  - intros md k v Hmd Hget. unfold full, enriched. rewrite Hmd.
    apply full_metadata_supplied; [|exact Hget].
    apply Hwf. exact Hmd.
  - unfold full, enriched.
    repeat split; intros Hs;
      rewrite (full_metadata_unsupplied _ _ _ _ _ _ _ _ _ _ _ Hs);
      try reflexivity; eexists; (split; [reflexivity|]).
    + apply strftime_Ymd_shape.
    + apply strftime_Ym_shape.
    + apply year_shape, Hclock.
    + apply isoformat_shape.
    + apply isoformat_shape.
Qed.

(** C9.  The metadata [create_memory] hands to the memory client (and
    returns) always has the keys category, client and project_type; each
    is bound to the argument of that name unless the caller's metadata
    has the key, and then to the caller's value. *)
Theorem enriched_metadata_category_client_project_type
  (content user_id category : value) (metadata : option Dict.t)
  (client project_type source : value) (w : World) :
  let full :=
    enriched clock category metadata client project_type source w in
  let out := create_memory clock mem0_client content user_id category
               metadata client project_type source w in
  (exists call,
      add_calls (snd out) = add_calls w ++ [call] /\
      add_metadata call = full) /\
  (forall res, fst out = Ok res -> MemoryResult.metadata res = full) /\
  (Dict.mem "category" full = true /\
   Dict.mem "client" full = true /\
   Dict.mem "project_type" full = true) /\
  (supplied "category" metadata = false ->
   Dict.get "category" full = Some category) /\
  (supplied "client" metadata = false ->
   Dict.get "client" full = Some client) /\
  (supplied "project_type" metadata = false ->
   Dict.get "project_type" full = Some project_type) /\
  (forall md k v,
      metadata = Some md -> Dict.wf md -> Dict.get k md = Some v ->
      Dict.get k full = Some v).
Proof.
  intros full out.
  split; [|split; [|split; [|repeat split]]].
  - eexists. split; [apply create_memory_add_calls | reflexivity].
  - intros res Hres. now apply create_memory_result_metadata in Hres.
  - repeat split; apply full_metadata_mem; unfold derived_keys; simpl; tauto.
  - intros Hs. unfold full, enriched.
    now rewrite (full_metadata_unsupplied _ _ _ _ _ _ _ _ _ _ _ Hs).
  - intros Hs. unfold full, enriched.
    now rewrite (full_metadata_unsupplied _ _ _ _ _ _ _ _ _ _ _ Hs).
  - intros Hs. unfold full, enriched.
    now rewrite (full_metadata_unsupplied _ _ _ _ _ _ _ _ _ _ _ Hs).
  - intros md k v Hmd Hwf Hget. unfold full, enriched. rewrite Hmd.
    now apply full_metadata_supplied.
Qed.

End EnrichmentClaims.

Lemma fake_clock_valid n : valid_datetime (Fake.clock n).
Proof.
  unfold valid_datetime, Fake.clock. cbn [year month day hour minute second microsecond].
  assert (Nat.modulo n 60 < 60)%nat by (apply Nat.mod_upper_bound; lia).
  lia.
Qed.

Lemma enriched_metadata_witness :
  let md := [("day", VStr "release day"); ("team", VStr "core")] in
  let r := Fake.request "deploy finished" (Some md) in
  let full := enriched Fake.clock (VStr "webhook") (Some md) (VStr "webhook")
                (VStr "webhook_post") (VStr "webhook") initial_world in
  MemoryWebhookRequest.content r <> EmptyString /\
  Dict.wf md /\
  Dict.mem "month" full = true /\
  Dict.get "day" full = Some (VStr "release day") /\
  Dict.get "team" full = Some (VStr "core").
Proof.
  intros md r full.
  assert (Hcontent : MemoryWebhookRequest.content r <> EmptyString)
    by discriminate.
  assert (Hwf : Dict.wf md).
  { unfold Dict.wf, md. cbn [Dict.keys map fst].
    repeat constructor; simpl; intuition discriminate. }
  assert (Hmd : forall d, MemoryWebhookRequest.metadata r = Some d -> Dict.wf d).
  { intros d Hd. injection Hd as <-. exact Hwf. }
  destruct (enriched_metadata_derived_and_caller_keys
              Fake.clock Fake.client r initial_world
              Hcontent fake_clock_valid Hmd)
    as (_ & _ & Hkeys & Hcaller & _).
  split; [exact Hcontent|].
  split; [exact Hwf|].
  split; [|split].
  - apply Hkeys. unfold listed_derived_keys. simpl. tauto.
  - apply (Hcaller md); reflexivity.
  - apply (Hcaller md); reflexivity.
Defined.

(** ** Extraction of the memory identifier *)

(** The identifier is found in the three shapes the client may answer
    with, and an empty dict gives [None]. *)
Lemma extract_memory_id_examples :
  extract_memory_id (VDict [("id", VStr "m1")]) = Ok (VStr "m1") /\
  extract_memory_id (VDict [("results", VList [VDict [("id", VStr "m2")]])])
  = Ok (VStr "m2") /\
  extract_memory_id (VList [VDict [("id", VStr "m3")]]) = Ok (VStr "m3") /\
  extract_memory_id (VDict []) = Ok VNone /\
  extract_memory_id (VList []) = Ok VNone /\
  extract_memory_id VNone = Ok VNone.
Proof. repeat split; reflexivity. Qed.

(** A dict with a true [id], or without [results], never raises. *)
Lemma extract_memory_id_dict_without_results d :
  Dict.get "results" d = None ->
  extract_memory_id (VDict d)
  = Ok (match Dict.get "id" d with
        | Some v => if truthy v then v else VNone
        | None => VNone
        end).
Proof.
  intros H. unfold extract_memory_id, method_get. cbn [bind]. rewrite H.
  destruct (Dict.get "id" d) as [v|]; [destruct (truthy v)|]; reflexivity.
Qed.

(** C2.  The answer [{"results": []}] matches none of the three patterns,
    and the extraction raises [IndexError] on it instead of giving [None]:
    the default [[{}]] only covers a missing [results] key.  [create_memory]
    raises with it, after the client has stored the memory; an empty list
    as the whole answer, which the other branch guards, gives [None]. *)
Theorem extract_memory_id_empty_results_raises :
  extract_memory_id (VDict [("results", VList [])])
  = Raise (Exn IndexError "list index out of range") /\
  extract_memory_id (VList []) = Ok VNone /\
  (let out := create_memory_of Fake.clock Fake.quiet_client
                (Fake.request "remember this" None) initial_world in
   fst out = Raise (Exn IndexError "list index out of range") /\
   List.length (add_calls (snd out)) = 1%nat).
Proof. repeat split; reflexivity. Qed.

(** ** The flexible (Zapier) and generic normalizers *)

Section Normalizers.

Variable DEFAULT_USER_ID : string.
Variable py_str : value -> string.
Variable json_dumps : value -> string.

(** A chain [d.get(k1) or d.get(k2) or ... or fallback] is the first
    true value among the keys, or the fallback. *)
Lemma or_chain_first_truthy k ks d (fallback : value) :
  (if truthy (get_or_none k d) then get_or_none k d
   else match first_truthy ks d with
        | Some (_, v) => v
        | None => fallback
        end)
  = match first_truthy (k :: ks) d with
    | Some (_, v) => v
    | None => fallback
    end.
Proof.
  unfold get_or_none. cbn [first_truthy].
  destruct (Dict.get k d) as [v|]; [destruct (truthy v)|]; reflexivity.
Qed.

(** The key [first_truthy] returns is the first one bound to a true
    value: the keys before it are absent or bound to a false value. *)
Lemma first_truthy_Some ks d k v :
  first_truthy ks d = Some (k, v) <->
  exists before after,
    ks = before ++ k :: after /\
    Dict.get k d = Some v /\ truthy v = true /\
    forall k', In k' before ->
      truthy (get_or_none k' d) = false.
Proof.
  unfold get_or_none. induction ks as [|k0 ks IH]; cbn [first_truthy].
  - split; [discriminate|].
    intros (before & after & H & _). now destruct before.
  - split.
    + destruct (Dict.get k0 d) as [v0|] eqn:E0;
        [destruct (truthy v0) eqn:T0|].
      * intros [= <- <-]. exists [], ks. repeat split; auto.
        intros k' [].
      * intros H. apply IH in H as (before & after & -> & Hg & Ht & Hb).
        exists (k0 :: before), after. repeat split; auto.
        intros k' [<-|Hin]; [now rewrite E0 | auto].
      * intros H. apply IH in H as (before & after & -> & Hg & Ht & Hb).
        exists (k0 :: before), after. repeat split; auto.
        intros k' [<-|Hin]; [now rewrite E0 | auto].
    + intros (before & after & Hks & Hg & Ht & Hb).
      destruct before as [|b before]; cbn [app] in Hks;
        injection Hks as E1 E2; subst k0 ks.
      * now rewrite Hg, Ht.
      * assert (Hb0 := Hb b (or_introl eq_refl)).
        assert (Hrest : first_truthy (before ++ k :: after) d = Some (k, v)).
        { apply IH. exists before, after. repeat split; auto.
          intros k' Hin. apply Hb. now right. }
        destruct (Dict.get b d) as [v0|]; [|exact Hrest].
        now rewrite Hb0.
Qed.

Lemma first_truthy_None ks d :
  first_truthy ks d = None <->
  forall k, In k ks -> truthy (get_or_none k d) = false.
Proof.
  unfold get_or_none. induction ks as [|k0 ks IH]; cbn [first_truthy].
  - split; [intros _ k [] | reflexivity].
  - destruct (Dict.get k0 d) as [v0|] eqn:E0;
      [destruct (truthy v0) eqn:T0|].
    + split; [discriminate|]. intros H.
      specialize (H k0 (or_introl eq_refl)). rewrite E0 in H. congruence.
    + rewrite IH. split.
      * intros H k [<-|Hin]; [now rewrite E0 | auto].
      * intros H k Hin. apply H. now right.
    + rewrite IH. split.
      * intros H k [<-|Hin]; [now rewrite E0 | auto].
      * intros H k Hin. apply H. now right.
Qed.

Lemma first_present_None_truthy ks d :
  first_present ks d = None -> first_truthy ks d = None.
Proof.
  induction ks as [|k ks IH]; cbn [first_present first_truthy]; auto.
  destruct (Dict.get k d); [discriminate | exact IH].
Qed.

(** The flexible normalizer on a JSON object, with the [or] chains
    evaluated. *)
Lemma zapier_normalize_dict d :
  zapier_normalize DEFAULT_USER_ID py_str (VDict d)
  = Ok {| n_content :=
            match first_truthy content_aliases d with
            | Some (_, v) => v
            | None => VStr (py_str (VDict d))
            end;
          n_user_id :=
            match first_truthy user_id_aliases d with
            | Some (_, v) => v
            | None => VStr DEFAULT_USER_ID
            end;
          n_category :=
            match first_truthy ["category"] d with
            | Some (_, v) => v
            | None => VStr "zapier"
            end;
          n_metadata :=
            filter (fun kv => negb (str_in (fst kv) zapier_reserved)) d |}.
Proof.
  unfold content_aliases, user_id_aliases.
  rewrite <- !or_chain_first_truthy. cbn [first_truthy].
  unfold zapier_normalize, method_get, method_items. cbn [bind].
  fold (get_or_none "content" d). fold (get_or_none "message" d).
  fold (get_or_none "text" d). fold (get_or_none "user_id" d).
  fold (get_or_none "userId" d). fold (get_or_none "category" d).
  destruct (truthy (get_or_none "content" d));
    destruct (truthy (get_or_none "message" d));
    destruct (truthy (get_or_none "text" d));
    destruct (truthy (get_or_none "user_id" d));
    destruct (truthy (get_or_none "userId" d));
    reflexivity.
Qed.

(** The generic normalizer on a JSON object. *)
Lemma generic_normalize_dict d :
  generic_normalize DEFAULT_USER_ID json_dumps (VDict d)
  = Ok {| n_content :=
            VStr ("Webhook data received: " ++ json_dumps (VDict d));
          n_user_id :=
            match first_truthy ["user_id"; "userId"; "user"; "email"] d with
            | Some (_, v) => v
            | None => VStr DEFAULT_USER_ID
            end;
          n_category := VStr "generic_webhook";
          n_metadata := [("raw_payload", VDict d)] |}.
Proof.
  rewrite <- !or_chain_first_truthy. cbn [first_truthy].
  unfold generic_normalize, method_get. cbn [bind].
  fold (get_or_none "user_id" d). fold (get_or_none "userId" d).
  fold (get_or_none "user" d). fold (get_or_none "email" d).
  destruct (truthy (get_or_none "user_id" d));
    destruct (truthy (get_or_none "userId" d));
    destruct (truthy (get_or_none "user" d));
    destruct (truthy (get_or_none "email" d));
    reflexivity.
Qed.

End Normalizers.

Section NormalizerClaims.

Variable DEFAULT_USER_ID : string.
Variable py_str : value -> string.
Variable json_dumps : value -> string.
Variable clock : nat -> datetime.
Variable mem0_client : Mem0Client.

(** C3, as amended.  On every JSON object the flexible normalizer
    returns; the content is the value of the first of content, message,
    text that is bound to a true value (not null, false, zero or empty),
    and the rendering of the whole object when none is; the user is the
    value of the first of user_id, userId bound to a true value, and the
    configured default when none is; the category is the object's when
    that is a true value and "zapier" otherwise, so also when it is
    absent.  The object with message "hi", userId "u1" and extra 1 gives
    content "hi", user "u1", category "zapier" and metadata extra 1. *)
Theorem zapier_normalize_first_true_value (d : Dict.t) :
  (exists n,
      zapier_normalize DEFAULT_USER_ID py_str (VDict d) = Ok n /\
      (forall before k after v,
          content_aliases = before ++ k :: after ->
          Dict.get k d = Some v -> truthy v = true ->
          (forall k', In k' before -> truthy (get_or_none k' d) = false) ->
          n_content n = v) /\
      ((forall k, In k content_aliases -> truthy (get_or_none k d) = false) ->
       n_content n = VStr (py_str (VDict d))) /\
      (forall before k after v,
          user_id_aliases = before ++ k :: after ->
          Dict.get k d = Some v -> truthy v = true ->
          (forall k', In k' before -> truthy (get_or_none k' d) = false) ->
          n_user_id n = v) /\
      ((forall k, In k user_id_aliases -> truthy (get_or_none k d) = false) ->
       n_user_id n = VStr DEFAULT_USER_ID) /\
      (truthy (get_or_none "category" d) = true ->
       n_category n = get_or_none "category" d) /\
      (truthy (get_or_none "category" d) = false ->
       n_category n = VStr "zapier") /\
      (Dict.get "category" d = None -> n_category n = VStr "zapier")) /\
  zapier_normalize DEFAULT_USER_ID py_str
    (VDict [("message", VStr "hi"); ("userId", VStr "u1"); ("extra", VInt 1)])
  = Ok {| n_content := VStr "hi";
          n_user_id := VStr "u1";
          n_category := VStr "zapier";
          n_metadata := [("extra", VInt 1)] |}.
Proof.
  split; [|reflexivity].
  eexists. split; [apply zapier_normalize_dict|].
  cbn [n_content n_user_id n_category].
  assert (Hcat : truthy (get_or_none "category" d) = false ->
                 match first_truthy ["category"] d with
                 | Some (_, v) => v
                 | None => VStr "zapier"
                 end = VStr "zapier").
  { intros H. rewrite <- (or_chain_first_truthy "category" [] d).
    now rewrite H. }
  repeat split.
  - intros before k after v Hks Hg Ht Hb.
    assert (H : first_truthy content_aliases d = Some (k, v)).
    { apply first_truthy_Some. exists before, after. auto. }
    now rewrite H.
  - intros H. apply first_truthy_None in H. now rewrite H.
  - intros before k after v Hks Hg Ht Hb.
    assert (H : first_truthy user_id_aliases d = Some (k, v)).
    { apply first_truthy_Some. exists before, after. auto. }
    now rewrite H.
  - intros H. apply first_truthy_None in H. now rewrite H.
  - intros H. rewrite <- (or_chain_first_truthy "category" [] d).
    now rewrite H.
  - exact Hcat.
  - intros H. apply Hcat. unfold get_or_none. now rewrite H.
Qed.

(** C4, as amended.  On every JSON object the metadata of the flexible
    normalizer is the object without the six keys content, message, text,
    user_id, userId and category, in the object's order: every other key
    is an entry with its value, and none of the six is, whether the
    extraction used its value or not. *)
Theorem zapier_metadata_drops_reserved_keys (d : Dict.t) :
  exists n,
    zapier_normalize DEFAULT_USER_ID py_str (VDict d) = Ok n /\
    n_metadata n
    = filter (fun kv => negb (str_in (fst kv) zapier_reserved)) d /\
    (forall k, str_in k zapier_reserved = false ->
               Dict.get k (n_metadata n) = Dict.get k d) /\
    (forall k, str_in k zapier_reserved = true ->
               Dict.get k (n_metadata n) = None).
Proof.
  eexists. split; [apply zapier_normalize_dict|]. cbn [n_metadata].
  split; [reflexivity|].
  split; intros k Hk;
    rewrite (DictFacts.get_filter
               (fun k => negb (str_in k zapier_reserved)));
    now rewrite Hk.
Qed.

(** C5.  A JSON body that is not an object, here the empty array, makes
    both normalizers raise [AttributeError] at their first [body.get];
    the generic and the Zapier endpoint answer 500 and never reach the
    memory client. *)
Theorem non_object_body_raises (w : World) :
  generic_normalize DEFAULT_USER_ID json_dumps (VList [])
  = Raise (Exn AttributeError "'list' object has no attribute 'get'") /\
  zapier_normalize DEFAULT_USER_ID py_str (VList [])
  = Raise (Exn AttributeError "'list' object has no attribute 'get'") /\
  generic_webhook DEFAULT_USER_ID clock mem0_client json_dumps (VList []) w
  = (inl {| status_code := 500;
            detail := "'list' object has no attribute 'get'" |}, w) /\
  zapier_webhook DEFAULT_USER_ID clock mem0_client py_str (VList []) w
  = (inl {| status_code := 500;
            detail := "'list' object has no attribute 'get'" |}, w).
Proof. repeat split; reflexivity. Qed.

(** On a JSON object neither normalizer raises. *)
Lemma normalizers_total_on_objects d :
  is_ok (zapier_normalize DEFAULT_USER_ID py_str (VDict d)) = true /\
  is_ok (generic_normalize DEFAULT_USER_ID json_dumps (VDict d)) = true.
Proof.
  now rewrite zapier_normalize_dict, generic_normalize_dict.
Qed.

(** Every body that is not an object makes both normalizers raise. *)
Lemma normalizers_raise_on_non_objects body :
  (forall d, body <> VDict d) ->
  is_ok (zapier_normalize DEFAULT_USER_ID py_str body) = false /\
  is_ok (generic_normalize DEFAULT_USER_ID json_dumps body) = false.
Proof.
  intros H. destruct body; try (split; reflexivity).
  now destruct (H d).
Qed.

End NormalizerClaims.

(** C3 as stated fails: with an empty content and a message, "first
    present value" names the empty content, and the normalizer takes the
    message. *)
Lemma zapier_first_present_counterexample :
  ~ zapier_first_present Fake.DEFAULT_USER_ID Fake.py_str
      [("content", VStr EmptyString); ("message", VStr "hi")].
Proof.
  intros (n & Hn & Hcontent & _).
  rewrite zapier_normalize_dict in Hn. injection Hn as <-.
  discriminate Hcontent.
Qed.

(** C4 as stated fails: with a content and a message, the extraction uses
    the content only, and the message is no metadata entry. *)
Lemma zapier_keeps_unconsumed_counterexample :
  ~ zapier_keeps_unconsumed Fake.DEFAULT_USER_ID Fake.py_str
      [("content", VStr "a"); ("message", VStr "b")].
Proof.
  intros (n & Hn & Hkeep).
  rewrite zapier_normalize_dict in Hn. injection Hn as <-.
  specialize (Hkeep "message" (VStr "b") eq_refl eq_refl).
  discriminate Hkeep.
Qed.

(** ** The batch endpoint *)

Lemma str_take_length n s :
  String.length (str_take n s) = Nat.min n (String.length s).
Proof.
  revert s. induction n as [|n IH]; intros [|c s]; cbn; auto.
Qed.

Lemma str_take_prefix n s : String.prefix (str_take n s) s = true.
Proof.
  revert s. induction n as [|n IH]; intros [|c s]; cbn; auto.
  destruct (ascii_dec c c); [apply IH | congruence].
Qed.

Section Batch.

Variable clock : nat -> datetime.
Variable mem0_client : Mem0Client.

(** The loop adds the successes and the failures of the run to its two
    accumulators, in the order of the entries. *)
Lemma batch_loop_run memories : forall results errors w,
  batch_loop clock mem0_client memories results errors w
  = (Ok (results ++ successes (fst (run_each clock mem0_client memories w)),
         errors ++ failures (fst (run_each clock mem0_client memories w))),
     snd (run_each clock mem0_client memories w)).
Proof.
  induction memories as [|r rest IH]; intros results errors w;
    cbn [batch_loop run_each].
  - cbn. now rewrite !app_nil_r.
  - destruct (create_memory_of clock mem0_client r w) as [[res|e] w1];
      rewrite IH;
      destruct (run_each clock mem0_client rest w1) as [os w2];
      cbn [fst snd successes failures];
      now rewrite <- !app_assoc.
Qed.

Lemma run_each_entries memories w :
  map fst (fst (run_each clock mem0_client memories w)) = memories.
Proof.
  revert w. induction memories as [|r rest IH]; intros w; cbn [run_each].
  - reflexivity.
  - destruct (create_memory_of clock mem0_client r w) as [o w1].
    specialize (IH w1).
    destruct (run_each clock mem0_client rest w1) as [os w2].
    cbn in *. now rewrite IH.
Qed.

Lemma successes_failures_length os :
  (List.length (successes os) + List.length (failures os)
   = List.length os)%nat.
Proof.
  induction os as [|[r [res|e]] os IH]; cbn; lia.
Qed.

Lemma failures_previews os err :
  In err (failures os) ->
  exists r e,
    In (r, Raise e) os /\
    BatchError.content err = str_take 50 (MemoryWebhookRequest.content r) /\
    BatchError.error err = exc_msg e.
Proof.
  induction os as [|[r [res|e]] os IH]; cbn [failures].
  - intros [].
  - intros H. destruct (IH H) as (r' & e' & Hin & Hc & He).
    exists r', e'. repeat split; auto. now right.
  - intros [<-|H].
    + exists r, e. repeat split. now left.
    + destruct (IH H) as (r' & e' & Hin & Hc & He).
      exists r', e'. repeat split; auto. now right.
Qed.

(** Every entry reaches the memory client once, in the order of the
    batch. *)
Lemma run_each_add_calls memories w :
  exists calls,
    add_calls (snd (run_each clock mem0_client memories w))
    = add_calls w ++ calls /\
    map add_messages calls
    = map (fun r => user_message (VStr (MemoryWebhookRequest.content r)))
        memories.
Proof.
  revert w. induction memories as [|r rest IH]; intros w; cbn [run_each].
  - exists []. cbn. now rewrite app_nil_r.
  - assert (Hcall := create_memory_add_calls clock mem0_client
                       (VStr (MemoryWebhookRequest.content r))
                       (of_optional (MemoryWebhookRequest.user_id r))
                       (of_optional (MemoryWebhookRequest.category r))
                       (MemoryWebhookRequest.metadata r)
                       (of_optional (MemoryWebhookRequest.client r))
                       (of_optional (MemoryWebhookRequest.project_type r))
                       (of_optional (MemoryWebhookRequest.source r)) w).
    fold (create_memory_of clock mem0_client r w) in Hcall.
    destruct (create_memory_of clock mem0_client r w) as [o w1].
    cbn [snd] in Hcall.
    destruct (IH w1) as (calls & Hcalls & Hmsgs).
    destruct (run_each clock mem0_client rest w1) as [os w2].
    cbn [snd] in *. eexists (_ :: calls). split.
    + rewrite Hcalls, Hcall, <- app_assoc. reflexivity.
    + cbn [map]. now rewrite Hmsgs.
Qed.

Lemma webhook_batch_memories_run memories w :
  let run := run_each clock mem0_client memories w in
  webhook_batch_memories clock mem0_client memories w
  = (Ok {| BatchResponse.success :=
             Nat.eqb (List.length (failures (fst run))) 0;
           BatchResponse.created := List.length (successes (fst run));
           BatchResponse.failed := List.length (failures (fst run));
           BatchResponse.results := successes (fst run);
           BatchResponse.errors :=
             match failures (fst run) with
             | [] => None
             | _ :: _ => Some (failures (fst run))
             end;
           BatchResponse.timestamp :=
             isoformat (clock (clock_reads (snd run))) |},
     tick (snd run)).
Proof.
  cbv zeta. unfold webhook_batch_memories, mbind.
  rewrite batch_loop_run. cbn [app fst snd]. reflexivity.
Qed.

(** C6.  The batch endpoint runs the submissions of its entries one
    after the other, each exactly once and in order, whatever fails: it
    always returns, with the successful results in [results], with one
    entry per failure holding the first 50 characters of the content and
    the text of the exception, and with their numbers in [created] and
    [failed], which add up to the size of the batch.  When the second of
    three submissions raises and the others succeed, [created] is 2,
    [failed] is 1 and the one error carries the truncated content of the
    second request. *)
Theorem batch_continues_past_failures :
  (forall memories w,
      let run := run_each clock mem0_client memories w in
      let outcomes := fst run in
      exists resp,
        webhook_batch_memories clock mem0_client memories w
        = (Ok resp, tick (snd run)) /\
        map fst outcomes = memories /\
        (exists calls,
            add_calls (snd run) = add_calls w ++ calls /\
            map add_messages calls
            = map (fun r =>
                     user_message (VStr (MemoryWebhookRequest.content r)))
                memories) /\
        BatchResponse.results resp = successes outcomes /\
        (forall errs, BatchResponse.errors resp = Some errs ->
                      errs = failures outcomes) /\
        (BatchResponse.errors resp = None -> failures outcomes = []) /\
        (forall err, In err (failures outcomes) ->
           exists r e,
             In (r, Raise e) outcomes /\
             BatchError.content err
             = str_take 50 (MemoryWebhookRequest.content r) /\
             String.length (BatchError.content err) <= 50 /\
             BatchError.error err = exc_msg e) /\
        BatchResponse.created resp = List.length (successes outcomes) /\
        BatchResponse.failed resp = List.length (failures outcomes) /\
        BatchResponse.created resp + BatchResponse.failed resp
        = List.length memories) /\
  (forall r1 r2 r3 w res1 e res3 w1 w2 w3,
      create_memory_of clock mem0_client r1 w = (Ok res1, w1) ->
      create_memory_of clock mem0_client r2 w1 = (Raise e, w2) ->
      create_memory_of clock mem0_client r3 w2 = (Ok res3, w3) ->
      exists resp,
        webhook_batch_memories clock mem0_client [r1; r2; r3] w
        = (Ok resp, tick w3) /\
        BatchResponse.created resp = 2 /\
        BatchResponse.failed resp = 1 /\
        BatchResponse.success resp = false /\
        BatchResponse.results resp = [res1; res3] /\
        BatchResponse.errors resp
        = Some [{| BatchError.content :=
                     str_take 50 (MemoryWebhookRequest.content r2);
                   BatchError.error := exc_msg e |}]).
Proof.
  split.
  - intros memories w run outcomes.
    eexists. split; [apply webhook_batch_memories_run|].
    cbn [BatchResponse.results BatchResponse.errors BatchResponse.created
         BatchResponse.failed].
    fold run. fold outcomes.
    split; [apply run_each_entries|].
    split; [apply run_each_add_calls|].
    split; [reflexivity|].
    split; [|split; [|split; [|split; [|split]]]].
    + intros errs H. destruct (failures outcomes); [discriminate|].
      now injection H as <-.
    + intros H. now destruct (failures outcomes).
    + intros err Hin.
      destruct (failures_previews _ _ Hin) as (r & e & Hr & Hc & He).
      exists r, e. repeat split; auto.
      rewrite Hc, str_take_length. apply Nat.le_min_l.
    + reflexivity.
    + reflexivity.
    + rewrite successes_failures_length. unfold outcomes, run.
      now rewrite <- (run_each_entries memories w) at 2; rewrite length_map.
  - intros r1 r2 r3 w res1 e res3 w1 w2 w3 H1 H2 H3.
    eexists. split.
    + rewrite webhook_batch_memories_run. cbn [run_each].
      rewrite H1, H2, H3. cbn [fst snd successes failures]. reflexivity.
    + cbn. repeat split.
Qed.

(** C10.  On the empty batch the endpoint reads the clock for the
    timestamp and does nothing else: [success] is true, [created] and
    [failed] are 0, [results] is empty and [errors] is [None].  On every
    batch [success] is true exactly when [failed] is 0. *)
Theorem batch_empty_and_success_flag :
  (forall w,
      webhook_batch_memories clock mem0_client [] w
      = (Ok {| BatchResponse.success := true;
               BatchResponse.created := 0;
               BatchResponse.failed := 0;
               BatchResponse.results := [];
               BatchResponse.errors := None;
               BatchResponse.timestamp :=
                 isoformat (clock (clock_reads w)) |},
         tick w) /\
      add_calls (tick w) = add_calls w) /\
  (forall memories w,
      exists resp w',
        webhook_batch_memories clock mem0_client memories w = (Ok resp, w') /\
        (BatchResponse.success resp = true <-> BatchResponse.failed resp = 0)).
Proof.
  split.
  - intros w. split; reflexivity.
  - intros memories w. eexists. eexists.
    split; [apply webhook_batch_memories_run|].
    cbn [BatchResponse.success BatchResponse.failed].
    apply Nat.eqb_eq.
Qed.

End Batch.

(** A batch of three against the client that rejects its second call. *)
Lemma batch_of_three_example :
  let r1 := Fake.request "first" None in
  let r2 := Fake.request
              "second, with a content of more than fifty characters in all"
              None in
  let r3 := Fake.request "third" None in
  let out := webhook_batch_memories Fake.clock Fake.client [r1; r2; r3]
               initial_world in
  exists resp,
    fst out = Ok resp /\
    BatchResponse.created resp = 2 /\
    BatchResponse.failed resp = 1 /\
    BatchResponse.errors resp
    = Some [{| BatchError.content :=
                 "second, with a content of more than fifty characte";
               BatchError.error := "remote rejected" |}] /\
    List.length (add_calls (snd out)) = 3.
Proof.
  eexists. split; [vm_compute; reflexivity|]. repeat split.
Qed.

(** ** The health check *)

Section Health.

Variable DEFAULT_USER_ID : string.
Variable clock : nat -> datetime.
Variable mem0_client : Mem0Client.

(** C7.  The health check sends the memory client one search, the probe,
    and no other call, and always returns a response whose
    [webhook_ready] is true: when the probe raises, whatever the
    exception, the status is "degraded" and [mem0_connected] false; when
    it returns, the status is "healthy" and [mem0_connected] true. *)
Theorem health_check_degrades_on_probe_failure (w : World) :
  exists resp,
    health_check DEFAULT_USER_ID clock mem0_client w
    = (Ok resp, tick (with_search (probe DEFAULT_USER_ID) w)) /\
    search_calls (tick (with_search (probe DEFAULT_USER_ID) w))
    = search_calls w ++ [probe DEFAULT_USER_ID] /\
    add_calls (tick (with_search (probe DEFAULT_USER_ID) w)) = add_calls w /\
    WebhookHealthResponse.webhook_ready resp = true /\
    is_isoformat (WebhookHealthResponse.timestamp resp) = true /\
    (forall e,
        search mem0_client w (probe DEFAULT_USER_ID) = Raise e ->
        WebhookHealthResponse.status resp = "degraded" /\
        WebhookHealthResponse.mem0_connected resp = false) /\
    (forall v,
        search mem0_client w (probe DEFAULT_USER_ID) = Ok v ->
        WebhookHealthResponse.status resp = "healthy" /\
        WebhookHealthResponse.mem0_connected resp = true).
Proof.
  unfold health_check, mbind, try_except, mem0_search, now, ret.
  destruct (search mem0_client w (probe DEFAULT_USER_ID)) as [v|e];
    eexists; (split; [reflexivity|]);
    cbn [WebhookHealthResponse.webhook_ready WebhookHealthResponse.status
         WebhookHealthResponse.mem0_connected
         WebhookHealthResponse.timestamp];
    (split; [reflexivity|]); (split; [reflexivity|]);
    (split; [reflexivity|]); (split; [apply isoformat_shape|]);
    split; intros x Hx; try discriminate Hx; split; reflexivity.
Qed.

End Health.

(** The health check against a client that is down. *)
Lemma health_check_example :
  exists resp w,
    health_check Fake.DEFAULT_USER_ID Fake.clock Fake.broken_client
      initial_world = (Ok resp, w) /\
    WebhookHealthResponse.status resp = "degraded" /\
    WebhookHealthResponse.webhook_ready resp = true /\
    WebhookHealthResponse.timestamp resp = "2025-03-09T14:05:00.000250".
Proof.
  eexists. eexists. split; [reflexivity|]. repeat split.
Qed.

(** ** Signature verification *)

Lemma hex_digit_ascii n :
  (0 <= n < 16)%Z -> Nat.ltb (nat_of_ascii (hex_digit n)) 128 = true.
Proof.
  intros H.
  assert (Hn : n = Z.of_nat (Z.to_nat n)) by lia.
  assert (Hb : (Z.to_nat n < 16)%nat) by lia.
  rewrite Hn. generalize dependent (Z.to_nat n). intros m _ Hm.
  do 16 (destruct m as [|m]; [reflexivity|]). lia.
Qed.

Lemma Z_of_byte_range b : (0 <= Sha256.Z_of_byte b < 256)%Z.
Proof.
  unfold Sha256.Z_of_byte. assert (H := Byte.to_N_bounded b). lia.
Qed.

(** A hexadecimal digest only has ASCII characters. *)
Lemma hexdigest_ascii bs : is_ascii_str (hexdigest bs) = true.
Proof.
  induction bs as [|b bs IH]; cbn [hexdigest is_ascii_str]; [reflexivity|].
  assert (H := Z_of_byte_range b).
  rewrite !hex_digit_ascii, IH; [reflexivity| |].
  - apply Z.mod_pos_bound. lia.
  - split; [apply Z.div_pos; lia | apply Z.div_lt_upper_bound; lia].
Qed.

Lemma is_ascii_str_eq a b :
  is_ascii_str b = true -> is_ascii_str a = false -> a <> b.
Proof. intros Hb Ha ->. congruence. Qed.

(** C8.  Without a configured secret (the empty secret or the
    placeholder) the verification returns true for every payload and
    signature.  With a configured secret it returns true exactly when the
    signature is the hexadecimal HMAC-SHA256 of the payload under the
    encoded secret: a different signature gives false when it is ASCII, and
    the comparison raises [TypeError] when it is not. *)
Theorem verify_webhook_signature_spec
  (payload : bytes) (signature secret : string) :
  let expected := hexdigest (hmac_sha256 (encode secret) payload) in
  (secret_configured secret = false ->
   verify_webhook_signature payload signature secret = Ok true) /\
  (secret_configured secret = true ->
   (verify_webhook_signature payload signature secret = Ok true
    <-> signature = expected)) /\
  (secret_configured secret = true ->
   signature <> expected ->
   is_ascii_str signature = true ->
   verify_webhook_signature payload signature secret = Ok false) /\
  (secret_configured secret = true ->
   is_ascii_str signature = false ->
   signature <> expected /\
   exists e, verify_webhook_signature payload signature secret = Raise e).
Proof.
  intros expected. unfold verify_webhook_signature, secret_configured.
  fold expected.
  assert (Hexp : is_ascii_str expected = true) by apply hexdigest_ascii.
  destruct (String.eqb secret EmptyString
            || String.eqb secret "your-webhook-secret-here");
    cbn [negb]; (split; [|split; [|split]]); try discriminate;
    try reflexivity; intros _; unfold compare_digest; rewrite Hexp.
  - destruct (is_ascii_str signature) eqn:Hsig; cbn [andb].
    + split.
      * intros [= H]. now apply String.eqb_eq.
      * intros ->. now rewrite String.eqb_refl.
    + split; [discriminate|].
      intros ->. congruence.
  - intros Hne ->. cbn [andb].
    apply String.eqb_neq in Hne. now rewrite Hne.
  - intros Hsig. rewrite Hsig. cbn [andb]. split.
    + now apply is_ascii_str_eq.
    + eexists. reflexivity.
Qed.

(** A signed payload, and the same payload with a wrong signature. *)
Lemma verify_webhook_signature_example :
  let payload := encode "The quick brown fox jumps over the lazy dog" in
  verify_webhook_signature payload
    "f7bc83f430538424b13298e6aa6fb143ef4d59a14946175997479dbc2d1a3cd8" "key"
  = Ok true /\
  verify_webhook_signature payload
    "f7bc83f430538424b13298e6aa6fb143ef4d59a14946175997479dbc2d1a3cd9" "key"
  = Ok false /\
  verify_webhook_signature payload "anything" "your-webhook-secret-here"
  = Ok true.
Proof. vm_compute. repeat split. Qed.


(** * Further properties of the handlers *)

(** ** Keys of an updated dictionary *)

Lemma keys_set_In k k' v d :
  In k (Dict.keys (Dict.set k' v d)) <-> In k (Dict.keys d) \/ k = k'.
Proof.
  unfold Dict.keys. induction d as [|[k2 v2] d IH]; cbn [Dict.set map fst].
  - cbn. intuition.
  - destruct (String.eqb k' k2) eqn:E; cbn [map fst In].
    + apply String.eqb_eq in E. subst k2. intuition.
    + rewrite IH. intuition.
Qed.

Lemma keys_update_In k d other :
  In k (Dict.keys (Dict.update d other))
  <-> In k (Dict.keys d) \/ In k (Dict.keys other).
Proof.
  unfold Dict.update. revert d.
  induction other as [|[k' v'] other IH]; intros d; cbn [fold_left fst snd].
  - cbn. intuition.
  - rewrite IH, keys_set_In. unfold Dict.keys. cbn [map fst In]. intuition.
Qed.

Lemma wf_set k v d : Dict.wf d -> Dict.wf (Dict.set k v d).
Proof.
  unfold Dict.wf, Dict.keys.
  induction d as [|[k2 v2] d IH]; cbn [Dict.set map fst]; intros H.
  - repeat constructor. intros [].
  - destruct (String.eqb k k2) eqn:E; cbn [map fst]; [exact H|].
    inversion H as [|? ? Hnotin Hnodup]; subst. constructor.
    + intros Hin. apply (keys_set_In k2 k v d) in Hin.
      destruct Hin as [Hin|Heq]; [contradiction|].
      subst k2. now rewrite String.eqb_refl in E.
    + now apply IH.
Qed.

Lemma wf_update d other : Dict.wf d -> Dict.wf (Dict.update d other).
Proof.
  unfold Dict.update. revert d.
  induction other as [|[k' v'] other IH]; intros d H; cbn [fold_left].
  - exact H.
  - apply IH. now apply wf_set.
Qed.

Lemma wf_filter (p : string * value -> bool) d :
  Dict.wf d -> Dict.wf (filter p d).
Proof.
  unfold Dict.wf, Dict.keys. induction d as [|kv d IH]; cbn [filter map].
  - trivial.
  - intros H. inversion H as [|? ? Hnotin Hnodup]; subst.
    destruct (p kv); cbn [map]; [|now apply IH].
    constructor; [|now apply IH].
    intros Hin. apply Hnotin. apply in_map_iff in Hin as (x & Hx & Hin).
    apply in_map_iff. exists x. split; [exact Hx|].
    now apply filter_In in Hin.
Qed.

Lemma mem_In_keys k d : Dict.mem k d = true <-> In k (Dict.keys d).
Proof.
  unfold Dict.mem. split.
  - destruct (Dict.get k d) eqn:E; [|discriminate].
    intros _. now apply DictFacts.get_In_keys in E.
  - intros Hin. destruct (Dict.get k d) eqn:E; [reflexivity|].
    now apply DictFacts.get_None_keys in E.
Qed.

(** ** More on [create_memory] *)

Section CreateMemoryMore.

Variable clock : nat -> datetime.
Variable mem0_client : Mem0Client.

(** X1.  The enriched metadata has exactly the ten derived keys and the keys of
    the caller's metadata, each once. *)
Theorem enriched_metadata_keys_exact
  (category : value) (metadata : option Dict.t)
  (client project_type source : value) (w : World) :
  let full := enriched clock category metadata client project_type source w in
  Dict.wf full /\
  forall k, In k (Dict.keys full)
            <-> In k derived_keys \/ supplied k metadata = true.
Proof.
  intros full. unfold full, enriched, full_metadata.
  set (base := [("category", category); _; _; _; _; _; _; _; _; _]).
  assert (Hwf : Dict.wf base).
  { unfold Dict.wf. cbn. repeat constructor; cbn; intuition discriminate. }
  assert (Hkeys : Dict.keys base = derived_keys) by reflexivity.
  destruct metadata as [[|kv md]|].
  - split; [exact Hwf|]. intros k. rewrite Hkeys. cbn. intuition discriminate.
  - split; [now apply wf_update|]. intros k.
    rewrite keys_update_In, Hkeys. unfold supplied.
    now rewrite mem_In_keys.
  - split; [exact Hwf|]. intros k. rewrite Hkeys. cbn. intuition discriminate.
Qed.

(** X2.  Whether it returns or raises, [create_memory] reads the clock five
    times, never searches, and hands the client exactly one call: the
    content as a single user message, the user, and the format v1.1. *)
Theorem create_memory_effects
  (content user_id category : value) (metadata : option Dict.t)
  (client project_type source : value) (w : World) :
  let w' := snd (create_memory clock mem0_client content user_id category
                   metadata client project_type source w) in
  clock_reads w' = 5 + clock_reads w /\
  search_calls w' = search_calls w /\
  exists call,
    add_calls w' = add_calls w ++ [call] /\
    add_messages call
    = VList [VDict [("role", VStr "user"); ("content", content)]] /\
    add_user_id call = user_id /\
    add_output_format call = "v1.1".
Proof.
  cbv zeta. rewrite create_memory_run. cbn [snd]. rewrite iter_tick.
  repeat split. eexists. repeat split.
Qed.

(** X3.  An exception of the memory client leaves [create_memory] as it is: it
    is neither wrapped nor replaced. *)
Theorem create_memory_reraises_client_error
  (content user_id category : value) (metadata : option Dict.t)
  (client project_type source : value) (w : World) (e : exn) :
  add mem0_client (Nat.iter 5 tick w)
    (submission clock content user_id category metadata
       client project_type source w) = Raise e ->
  fst (create_memory clock mem0_client content user_id category metadata
         client project_type source w) = Raise e.
Proof.
  intros H. rewrite create_memory_run. cbn [fst]. now rewrite H.
Qed.

(** X4.  On a structured request the content is text, so [create_memory]
    returns exactly when the client answers and an identifier can be
    extracted from the answer; the result then echoes the content and the
    user of the request and carries that identifier. *)
Theorem create_memory_of_returns_iff (r : MemoryWebhookRequest.t)
  (w : World) (result : MemoryResult.t) :
  fst (create_memory_of clock mem0_client r w) = Ok result
  <-> exists answer memory_id,
        add mem0_client (Nat.iter 5 tick w) (request_call clock r w)
        = Ok answer /\
        extract_memory_id answer = Ok memory_id /\
        result
        = {| MemoryResult.success := true;
             MemoryResult.memory_id := memory_id;
             MemoryResult.user_id :=
               of_optional (MemoryWebhookRequest.user_id r);
             MemoryResult.content :=
               VStr (MemoryWebhookRequest.content r);
             MemoryResult.metadata := add_metadata (request_call clock r w) |}.
Proof.
  unfold create_memory_of, request_call. rewrite create_memory_run.
  cbn [fst slice50].
  destruct (add mem0_client _ _) as [answer|e]; cbn [bind].
  - destruct (extract_memory_id answer) as [i|e] eqn:Hx; cbn [bind].
    + split.
      * intros [= <-]. exists answer, i. repeat split; auto.
      * intros (a & i' & [= <-] & Hi & ->). congruence.
    + split; [discriminate|]. intros (a & i' & [= <-] & Hi & _). congruence.
  - split; [discriminate|]. intros (a & i' & Ha & _). discriminate.
Qed.

End CreateMemoryMore.

Lemma create_memory_reraises_witness :
  fst (create_memory Fake.clock Fake.broken_client (VStr "note")
         (VStr "quinn_may") (VStr "webhook") None (VStr "webhook")
         (VStr "webhook_post") (VStr "webhook") initial_world)
  = Raise (Exn (OtherException "ConnectError") "unreachable").
Proof.
  apply create_memory_reraises_client_error. reflexivity.
Defined.

Lemma create_memory_of_returns_example :
  fst (create_memory_of Fake.clock Fake.client
         (Fake.request "note" None) initial_world)
  = Ok {| MemoryResult.success := true;
          MemoryResult.memory_id := VStr "m1";
          MemoryResult.user_id := VStr "quinn_may";
          MemoryResult.content := VStr "note";
          MemoryResult.metadata :=
            add_metadata (request_call Fake.clock (Fake.request "note" None)
                            initial_world) |}.
Proof. reflexivity. Qed.

(** ** More on the extraction of the identifier *)

(** X5.  A true top-level [id] is the identifier, whatever else the answer
    holds: [results] is not looked at. *)
Theorem extract_memory_id_direct_id_wins (d : Dict.t) (v : value) :
  Dict.get "id" d = Some v ->
  truthy v = true ->
  extract_memory_id (VDict d) = Ok v.
Proof.
  intros Hget Ht. unfold extract_memory_id, method_get. cbn [bind].
  now rewrite Hget, Ht.
Qed.

Lemma extract_memory_id_direct_id_witness :
  extract_memory_id (VDict [("id", VStr "m1"); ("results", VList [])])
  = Ok (VStr "m1").
Proof.
  apply extract_memory_id_direct_id_wins; reflexivity.
Defined.

(** X6.  Without a true top-level [id], an answer whose [results] start with an
    object gives the [id] of that object, [None] when it has none; the
    later results are not looked at. *)
Theorem extract_memory_id_first_result
  (d o : Dict.t) (rest : list value) :
  truthy (get_or_none "id" d) = false ->
  Dict.get "results" d = Some (VList (VDict o :: rest)) ->
  extract_memory_id (VDict d) = Ok (get_or_none "id" o).
Proof.
  intros Ht Hres. unfold extract_memory_id, method_get. cbn [bind].
  fold (get_or_none "id" d). rewrite Ht, Hres. reflexivity.
Qed.

Lemma extract_memory_id_first_result_witness :
  extract_memory_id
    (VDict [("id", VNone);
            ("results", VList [VDict [("id", VStr "m2")];
                               VDict [("id", VStr "m9")]])])
  = Ok (VStr "m2").
Proof.
  apply (extract_memory_id_first_result _ [("id", VStr "m2")]
           [VDict [("id", VStr "m9")]]); reflexivity.
Defined.

(** X7.  The extraction raises in two cases only: the answer is an object
    without a true [id] whose [results] is something else than a list
    starting with an object, or the answer is a list whose first element is
    not an object. *)
Theorem extract_memory_id_raises_iff (answer : value) :
  (exists e, extract_memory_id answer = Raise e)
  <-> (exists d r,
          answer = VDict d /\
          truthy (get_or_none "id" d) = false /\
          Dict.get "results" d = Some r /\
          first_is_object r = false)
      \/ (exists x rest,
             answer = VList (x :: rest) /\ first_is_object answer = false).
Proof.
  split.
  - intros [e He]. destruct answer as [| | | | |l|d]; try discriminate He.
    + right. destruct l as [|x rest]; [discriminate He|].
      exists x, rest. split; [reflexivity|].
      destruct x; try reflexivity. discriminate He.
    + left. unfold extract_memory_id, method_get in He. cbn [bind] in He.
      fold (get_or_none "id" d) in He.
      destruct (truthy (get_or_none "id" d)) eqn:Ht; [discriminate He|].
      destruct (Dict.get "results" d) as [r|] eqn:Hr.
      * exists d, r. repeat split; auto.
        destruct r as [| | | | |[|[] ?]|]; try reflexivity.
        cbn in He. discriminate He.
      * cbn in He. discriminate He.
  - intros [(d & r & -> & Ht & Hr & Hobj)|(x & rest & -> & Hobj)].
    + unfold extract_memory_id, method_get. cbn [bind].
      fold (get_or_none "id" d). rewrite Ht, Hr.
      destruct r as [| | | |s|[|[] ?]|]; try discriminate Hobj;
        try (eexists; reflexivity).
      destruct s; eexists; reflexivity.
    + destruct x; try discriminate Hobj; eexists; reflexivity.
Qed.

(** ** The single-memory endpoints, end to end *)

Lemma full_metadata_single k v category client project_type source
  d1 d2 d3 d4 d5 :
  str_in k derived_keys = false ->
  full_metadata category client project_type source d1 d2 d3 d4 d5
    (Some [(k, v)])
  = full_metadata category client project_type source d1 d2 d3 d4 d5 None
    ++ [(k, v)].
Proof.
  intros H. unfold full_metadata, Dict.update. cbn [fold_left fst snd].
  unfold derived_keys, str_in in H. cbn [existsb] in H.
  repeat (apply orb_false_elim in H as [? H]).
  cbn [Dict.set app].
  repeat match goal with
         | E : String.eqb k ?x = false |- _ => rewrite E; clear E
         end.
  reflexivity.
Qed.

Section Endpoints.

Variable DEFAULT_USER_ID : string.
Variable clock : nat -> datetime.
Variable mem0_client : Mem0Client.
Variable py_str : value -> string.
Variable json_dumps : value -> string.
Variable MemoryResponse_other :
  value -> string -> option string -> result MemoryResponse.t.

(** The Zapier endpoint on a JSON object: one submission, then the reply
    or the error of the submission as a 500. *)
Lemma zapier_webhook_run d w :
  zapier_webhook DEFAULT_USER_ID clock mem0_client py_str (VDict d) w
  = let call := zapier_call DEFAULT_USER_ID clock py_str d w in
    let w5 := Nat.iter 5 tick w in
    match (answer <- add mem0_client w5 call ;;
           _ <- slice50 (zapier_content py_str d) ;;
           extract_memory_id answer) with
    | Ok memory_id =>
        (inr {| WebhookReply.success := true;
                WebhookReply.message := "Memory created via Zapier";
                WebhookReply.memory_id := memory_id;
                WebhookReply.timestamp :=
                  isoformat (clock (5 + clock_reads w)) |},
         tick (with_add call w5))
    | Raise e =>
        (inl {| status_code := 500; detail := exc_msg e |},
         with_add call w5)
    end.
Proof.
  unfold zapier_webhook, or_http_500. unfold mbind at 1. unfold lift.
  rewrite zapier_normalize_dict. cbn [n_content n_user_id n_category n_metadata].
  unfold mbind at 1. rewrite create_memory_run. cbv zeta.
  unfold zapier_call, zapier_content, zapier_user_id, zapier_category,
    zapier_metadata.
  destruct (add mem0_client _ _) as [answer|e]; cbn [bind]; [|reflexivity].
  destruct (slice50 _) as [s|e]; cbn [bind]; [|reflexivity].
  destruct (extract_memory_id answer) as [i|e]; cbn [bind]; [|reflexivity].
  unfold mbind, now, ret. rewrite iter_tick. reflexivity.
Qed.

(** The generic endpoint on a JSON object; its content is text, so the
    slicing for the log cannot fail. *)
Lemma generic_webhook_run d w :
  generic_webhook DEFAULT_USER_ID clock mem0_client json_dumps (VDict d) w
  = let call := generic_call DEFAULT_USER_ID clock json_dumps d w in
    let w5 := Nat.iter 5 tick w in
    match (answer <- add mem0_client w5 call ;; extract_memory_id answer) with
    | Ok memory_id =>
        (inr {| WebhookReply.success := true;
                WebhookReply.message := "Data stored as memory";
                WebhookReply.memory_id := memory_id;
                WebhookReply.timestamp :=
                  isoformat (clock (5 + clock_reads w)) |},
         tick (with_add call w5))
    | Raise e =>
        (inl {| status_code := 500; detail := exc_msg e |},
         with_add call w5)
    end.
Proof.
  unfold generic_webhook, or_http_500. unfold mbind at 1. unfold lift.
  rewrite generic_normalize_dict. cbn [n_content n_user_id n_category n_metadata].
  unfold mbind at 1. rewrite create_memory_run. cbv zeta.
  unfold generic_call, generic_user_id. cbn [slice50].
  destruct (add mem0_client _ _) as [answer|e]; cbn [bind]; [|reflexivity].
  destruct (extract_memory_id answer) as [i|e]; cbn [bind]; [|reflexivity].
  unfold mbind, now, ret. rewrite iter_tick. reflexivity.
Qed.

(** The structured endpoint: one submission, then the response model. *)
Lemma webhook_memory_endpoint_run r w :
  webhook_memory_endpoint clock mem0_client MemoryResponse_other r w
  = let call := request_call clock r w in
    let w5 := Nat.iter 5 tick w in
    match (answer <- add mem0_client w5 call ;; extract_memory_id answer) with
    | Ok memory_id =>
        match MemoryResponse_new MemoryResponse_other memory_id
                (isoformat (clock (5 + clock_reads w)))
                (MemoryWebhookRequest.user_id r) with
        | Ok resp => (inr resp, tick (with_add call w5))
        | Raise e =>
            (inl {| status_code := 500; detail := exc_msg e |},
             tick (with_add call w5))
        end
    | Raise e =>
        (inl {| status_code := 500; detail := exc_msg e |},
         with_add call w5)
    end.
Proof.
  unfold webhook_memory_endpoint, or_http_500, create_memory_of.
  unfold mbind at 1. rewrite create_memory_run. cbv zeta.
  unfold request_call. cbn [slice50].
  destruct (add mem0_client _ _) as [answer|e]; cbn [bind]; [|reflexivity].
  destruct (extract_memory_id answer) as [i|e]; cbn [bind]; [|reflexivity].
  unfold mbind, now, ret, lift. rewrite iter_tick.
  cbn [MemoryResult.memory_id clock_reads with_add].
  destruct (MemoryResponse_new _ _ _ _); reflexivity.
Qed.

End Endpoints.

Lemma add_calls_tick w : add_calls (tick w) = add_calls w.
Proof. reflexivity. Qed.

Lemma add_calls_after_call c n w :
  add_calls (with_add c (Nat.iter n tick w)) = add_calls w ++ [c].
Proof. cbn [with_add add_calls]. now rewrite iter_tick. Qed.

Lemma zapier_metadata_get k d :
  Dict.get k (zapier_metadata d)
  = if str_in k zapier_reserved then None else Dict.get k d.
Proof.
  unfold zapier_metadata.
  rewrite (DictFacts.get_filter (fun k => negb (str_in k zapier_reserved))).
  now destruct (str_in k zapier_reserved).
Qed.

Lemma zapier_metadata_unsupplied k d :
  (str_in k zapier_reserved = true \/ Dict.get k d = None) ->
  supplied k (Some (zapier_metadata d)) = false.
Proof.
  intros H. unfold supplied, Dict.mem. rewrite zapier_metadata_get.
  destruct H as [-> | H]; [reflexivity|].
  rewrite H. now destruct (str_in k zapier_reserved).
Qed.

Section EndpointProperties.

Variable DEFAULT_USER_ID : string.
Variable clock : nat -> datetime.
Variable mem0_client : Mem0Client.
Variable py_str : value -> string.
Variable json_dumps : value -> string.
Variable MemoryResponse_other :
  value -> string -> option string -> result MemoryResponse.t.

Lemma zapier_webhook_add_calls d w :
  add_calls (snd (zapier_webhook DEFAULT_USER_ID clock mem0_client py_str
                    (VDict d) w))
  = add_calls w ++ [zapier_call DEFAULT_USER_ID clock py_str d w].
Proof.
  rewrite zapier_webhook_run. cbv zeta.
  destruct (bind _ _); cbn [snd]; rewrite ?add_calls_tick;
    apply add_calls_after_call.
Qed.

Lemma generic_webhook_add_calls d w :
  add_calls (snd (generic_webhook DEFAULT_USER_ID clock mem0_client json_dumps
                    (VDict d) w))
  = add_calls w ++ [generic_call DEFAULT_USER_ID clock json_dumps d w].
Proof.
  rewrite generic_webhook_run. cbv zeta.
  destruct (bind _ _); cbn [snd]; rewrite ?add_calls_tick;
    apply add_calls_after_call.
Qed.

(** X8.  On every JSON object the Zapier endpoint hands the client one call,
    with the normalized content and user.  The category of its metadata is
    always the normalized category: no key of the body can replace it.  The
    tags client "zapier", project_type "automation" and source
    "zapier_webhook" are there unless the body has a key of that name. *)
Theorem zapier_submission_category_and_tags (d : Dict.t) (w : World) :
  exists call,
    add_calls (snd (zapier_webhook DEFAULT_USER_ID clock mem0_client py_str
                      (VDict d) w))
    = add_calls w ++ [call] /\
    add_messages call = user_message (zapier_content py_str d) /\
    add_user_id call = zapier_user_id DEFAULT_USER_ID d /\
    Dict.get "category" (add_metadata call) = Some (zapier_category d) /\
    (Dict.get "client" d = None ->
     Dict.get "client" (add_metadata call) = Some (VStr "zapier")) /\
    (Dict.get "project_type" d = None ->
     Dict.get "project_type" (add_metadata call) = Some (VStr "automation")) /\
    (Dict.get "source" d = None ->
     Dict.get "source" (add_metadata call) = Some (VStr "zapier_webhook")).
Proof.
  eexists. split; [apply zapier_webhook_add_calls|].
  unfold zapier_call, submission, enriched.
  cbn [add_messages add_user_id add_metadata].
  split; [reflexivity|]. split; [reflexivity|].
  split; [|split; [|split]].
  - rewrite full_metadata_unsupplied; [reflexivity|].
    apply zapier_metadata_unsupplied. now left.
  - intros H. rewrite full_metadata_unsupplied; [reflexivity|].
    apply zapier_metadata_unsupplied. now right.
  - intros H. rewrite full_metadata_unsupplied; [reflexivity|].
    apply zapier_metadata_unsupplied. now right.
  - intros H. rewrite full_metadata_unsupplied; [reflexivity|].
    apply zapier_metadata_unsupplied. now right.
Qed.

(** X9.  Every other top-level key of a Zapier body reaches the metadata of the
    submission with its value, also when it has the name of a derived key
    such as source or day, which it then replaces. *)
Theorem zapier_body_keys_reach_submission
  (d : Dict.t) (w : World) (k : string) (v : value) :
  Dict.wf d ->
  str_in k zapier_reserved = false ->
  Dict.get k d = Some v ->
  exists call,
    add_calls (snd (zapier_webhook DEFAULT_USER_ID clock mem0_client py_str
                      (VDict d) w))
    = add_calls w ++ [call] /\
    Dict.get k (add_metadata call) = Some v.
Proof.
  intros Hwf Hk Hget.
  eexists. split; [apply zapier_webhook_add_calls|].
  unfold zapier_call, submission, enriched. cbn [add_metadata].
  apply full_metadata_supplied.
  - now apply wf_filter.
  - now rewrite zapier_metadata_get, Hk.
Qed.

(** X10.  When the memory client raises, each of the three single-memory
    endpoints answers 500 with the text of that exception, after the one
    call and without a further reading of the clock. *)
Theorem client_failure_is_http_500 :
  (forall r w e,
      add mem0_client (Nat.iter 5 tick w) (request_call clock r w) = Raise e ->
      webhook_memory_endpoint clock mem0_client MemoryResponse_other r w
      = (inl {| status_code := 500; detail := exc_msg e |},
         with_add (request_call clock r w) (Nat.iter 5 tick w))) /\
  (forall d w e,
      add mem0_client (Nat.iter 5 tick w)
        (zapier_call DEFAULT_USER_ID clock py_str d w) = Raise e ->
      zapier_webhook DEFAULT_USER_ID clock mem0_client py_str (VDict d) w
      = (inl {| status_code := 500; detail := exc_msg e |},
         with_add (zapier_call DEFAULT_USER_ID clock py_str d w)
           (Nat.iter 5 tick w))) /\
  (forall d w e,
      add mem0_client (Nat.iter 5 tick w)
        (generic_call DEFAULT_USER_ID clock json_dumps d w) = Raise e ->
      generic_webhook DEFAULT_USER_ID clock mem0_client json_dumps (VDict d) w
      = (inl {| status_code := 500; detail := exc_msg e |},
         with_add (generic_call DEFAULT_USER_ID clock json_dumps d w)
           (Nat.iter 5 tick w))).
Proof.
  repeat split.
  - intros r w e H. rewrite webhook_memory_endpoint_run. cbv zeta.
    now rewrite H.
  - intros d w e H. rewrite zapier_webhook_run. cbv zeta. now rewrite H.
  - intros d w e H. rewrite generic_webhook_run. cbv zeta. now rewrite H.
Qed.

(** X11.  A Zapier body whose content is a true value that cannot be sliced (a
    number, a boolean or an object) is handed to the client all the same;
    when the client has answered, the slicing for the log raises and the
    endpoint answers 500. *)
Theorem zapier_unsliceable_content_fails_after_submission
  (d : Dict.t) (w : World) (answer : value) (e : exn) :
  slice50 (zapier_content py_str d) = Raise e ->
  add mem0_client (Nat.iter 5 tick w)
    (zapier_call DEFAULT_USER_ID clock py_str d w) = Ok answer ->
  zapier_webhook DEFAULT_USER_ID clock mem0_client py_str (VDict d) w
  = (inl {| status_code := 500; detail := exc_msg e |},
     with_add (zapier_call DEFAULT_USER_ID clock py_str d w)
       (Nat.iter 5 tick w)).
Proof.
  intros Hslice Hadd. rewrite zapier_webhook_run. cbv zeta.
  rewrite Hadd. cbn [bind]. now rewrite Hslice.
Qed.

(** X12.  On every JSON object the generic endpoint hands the client one call
    whose metadata is the ten derived entries, none of them replaced,
    followed by the whole body under raw_payload. *)
Theorem generic_submission_exact (d : Dict.t) (w : World) :
  exists call,
    add_calls (snd (generic_webhook DEFAULT_USER_ID clock mem0_client
                      json_dumps (VDict d) w))
    = add_calls w ++ [call] /\
    add_messages call
    = user_message (VStr ("Webhook data received: " ++ json_dumps (VDict d))) /\
    add_user_id call = generic_user_id DEFAULT_USER_ID d /\
    add_metadata call
    = [("category", VStr "generic_webhook");
       ("day", VStr (strftime_Ymd (reading clock w 0)));
       ("month", VStr (strftime_Ym (reading clock w 1)));
       ("year", VStr (py_str_int (year (reading clock w 2))));
       ("client", VStr "generic");
       ("project_type", VStr "webhook");
       ("device", VStr "webhook_api");
       ("timestamp", VStr (isoformat (reading clock w 3)));
       ("source", VStr "generic_webhook");
       ("webhook_received", VStr (isoformat (reading clock w 4)));
       ("raw_payload", VDict d)].
Proof.
  eexists. split; [apply generic_webhook_add_calls|].
  unfold generic_call, submission, enriched.
  cbn [add_messages add_user_id add_metadata].
  split; [reflexivity|]. split; [reflexivity|].
  now rewrite full_metadata_single.
Qed.

(** X13.  The generic endpoint on a JSON object succeeds exactly when the
    client answers and an identifier can be extracted from the answer; the
    reply then carries that identifier and the sixth reading of the
    clock. *)
Theorem generic_webhook_succeeds_iff
  (d : Dict.t) (w : World) (reply : WebhookReply.t) (w' : World) :
  generic_webhook DEFAULT_USER_ID clock mem0_client json_dumps (VDict d) w
  = (inr reply, w')
  <-> exists answer memory_id,
        add mem0_client (Nat.iter 5 tick w)
          (generic_call DEFAULT_USER_ID clock json_dumps d w) = Ok answer /\
        extract_memory_id answer = Ok memory_id /\
        reply = {| WebhookReply.success := true;
                   WebhookReply.message := "Data stored as memory";
                   WebhookReply.memory_id := memory_id;
                   WebhookReply.timestamp :=
                     isoformat (clock (5 + clock_reads w)) |} /\
        w' = tick (with_add
                     (generic_call DEFAULT_USER_ID clock json_dumps d w)
                     (Nat.iter 5 tick w)).
Proof.
  rewrite generic_webhook_run. cbv zeta.
  destruct (add mem0_client _ _) as [answer|e]; cbn [bind].
  - destruct (extract_memory_id answer) as [i|e] eqn:Hx.
    + split.
      * intros [= <- <-]. exists answer, i. repeat split; auto.
      * intros (a & i' & [= <-] & Hi & -> & ->). congruence.
    + split; [discriminate|].
      intros (a & i' & [= <-] & Hi & _). congruence.
  - split; [discriminate|]. intros (a & i' & Ha & _). discriminate.
Qed.

(** X14.  The generic normalizer on a JSON object: the user is the value of the
    first of user_id, userId, user, email bound to a true value, and the
    configured default when none is; the content is the rendering of the
    body behind a fixed prefix; the body goes into the metadata under
    raw_payload.  In particular an object without identity fields gets the
    default user. *)
Theorem generic_normalize_first_true_user (d : Dict.t) :
  exists n,
    generic_normalize DEFAULT_USER_ID json_dumps (VDict d) = Ok n /\
    n_content n = VStr ("Webhook data received: " ++ json_dumps (VDict d)) /\
    n_category n = VStr "generic_webhook" /\
    n_metadata n = [("raw_payload", VDict d)] /\
    (forall before k after v,
        ["user_id"; "userId"; "user"; "email"] = before ++ k :: after ->
        Dict.get k d = Some v -> truthy v = true ->
        (forall k', In k' before -> truthy (get_or_none k' d) = false) ->
        n_user_id n = v) /\
    ((forall k, In k ["user_id"; "userId"; "user"; "email"] ->
                truthy (get_or_none k d) = false) ->
     n_user_id n = VStr DEFAULT_USER_ID).
Proof.
  eexists. split; [apply generic_normalize_dict|].
  cbn [n_content n_category n_metadata n_user_id].
  repeat split.
  - intros before k after v Hks Hg Ht Hb.
    assert (H : first_truthy ["user_id"; "userId"; "user"; "email"] d
                = Some (k, v)).
    { apply first_truthy_Some. exists before, after. auto. }
    now rewrite H.
  - intros H. apply first_truthy_None in H. now rewrite H.
Qed.

(** X15.  When the client answers, the identifier extracted from the answer is
    text or absent, and the request names a user, the structured endpoint
    replies with success, that identifier, the sixth reading of the clock
    and the user of the request. *)
Theorem webhook_memory_endpoint_reply
  (r : MemoryWebhookRequest.t) (w : World)
  (answer : value) (memory_id : option string) (u : string) :
  MemoryWebhookRequest.user_id r = Some u ->
  add mem0_client (Nat.iter 5 tick w) (request_call clock r w) = Ok answer ->
  extract_memory_id answer = Ok (of_optional memory_id) ->
  webhook_memory_endpoint clock mem0_client MemoryResponse_other r w
  = (inr {| MemoryResponse.success := true;
            MemoryResponse.message := "Memory created successfully";
            MemoryResponse.memory_id := memory_id;
            MemoryResponse.timestamp := isoformat (clock (5 + clock_reads w));
            MemoryResponse.user_id := u |},
     tick (with_add (request_call clock r w) (Nat.iter 5 tick w))).
Proof.
  intros Hu Hadd Hx. rewrite webhook_memory_endpoint_run. cbv zeta.
  rewrite Hadd. cbn [bind]. rewrite Hx, Hu.
  destruct memory_id; reflexivity.
Qed.

End EndpointProperties.

Lemma zapier_body_keys_witness :
  exists call,
    add_calls (snd (zapier_webhook Fake.DEFAULT_USER_ID Fake.clock Fake.client
                      Fake.py_str
                      (VDict [("content", VStr "hi"); ("source", VStr "crm")])
                      initial_world))
    = [] ++ [call] /\
    Dict.get "source" (add_metadata call) = Some (VStr "crm").
Proof.
  apply (zapier_body_keys_reach_submission Fake.DEFAULT_USER_ID Fake.clock
           Fake.client Fake.py_str
           [("content", VStr "hi"); ("source", VStr "crm")] initial_world).
  - unfold Dict.wf. cbn. repeat constructor; cbn; intuition discriminate.
  - reflexivity.
  - reflexivity.
Defined.

Lemma zapier_unsliceable_content_witness :
  fst (zapier_webhook Fake.DEFAULT_USER_ID Fake.clock Fake.client Fake.py_str
         (VDict [("content", VInt 5)]) initial_world)
  = inl {| status_code := 500;
           detail := "'int' object is not subscriptable" |}.
Proof.
  rewrite (zapier_unsliceable_content_fails_after_submission
             Fake.DEFAULT_USER_ID Fake.clock Fake.client Fake.py_str
             [("content", VInt 5)] initial_world
             (VDict [("results", VList [VDict [("id", VStr "m1")]])])
             (Exn TypeError "'int' object is not subscriptable"));
    reflexivity.
Defined.

Lemma webhook_memory_endpoint_reply_witness :
  fst (webhook_memory_endpoint Fake.clock Fake.client Fake.strict_response
         (Fake.request "note" None) initial_world)
  = inr {| MemoryResponse.success := true;
           MemoryResponse.message := "Memory created successfully";
           MemoryResponse.memory_id := Some "m1";
           MemoryResponse.timestamp := "2025-03-09T14:05:05.000250";
           MemoryResponse.user_id := "quinn_may" |}.
Proof.
  rewrite (webhook_memory_endpoint_reply Fake.clock Fake.client
             Fake.strict_response (Fake.request "note" None) initial_world
             (VDict [("results", VList [VDict [("id", VStr "m1")]])])
             (Some "m1") "quinn_may"); reflexivity.
Defined.

(** The three endpoints against a client that is down. *)
Lemma client_failure_example :
  fst (webhook_memory_endpoint Fake.clock Fake.broken_client
         Fake.strict_response (Fake.request "note" None) initial_world)
  = inl {| status_code := 500; detail := "unreachable" |} /\
  fst (zapier_webhook Fake.DEFAULT_USER_ID Fake.clock Fake.broken_client
         Fake.py_str (VDict [("text", VStr "note")]) initial_world)
  = inl {| status_code := 500; detail := "unreachable" |} /\
  fst (generic_webhook Fake.DEFAULT_USER_ID Fake.clock Fake.broken_client
         Fake.json_dumps (VDict [("foo", VStr "bar")]) initial_world)
  = inl {| status_code := 500; detail := "unreachable" |}.
Proof. repeat split; reflexivity. Qed.

(** ** More on the signature *)

Lemma round_length s kw : List.length (Sha256.round s kw) = List.length s.
Proof.
  unfold Sha256.round.
  destruct s as [|a [|b [|c [|d [|e [|f [|g [|h [|i s]]]]]]]]]; reflexivity.
Qed.

Lemma rounds_length kws : forall s,
  List.length (fold_left Sha256.round kws s) = List.length s.
Proof.
  induction kws as [|kw kws IH]; intros s; cbn [fold_left].
  - reflexivity.
  - now rewrite IH, round_length.
Qed.

Lemma compress_length h block :
  List.length (Sha256.compress h block) = List.length h.
Proof.
  unfold Sha256.compress.
  rewrite length_map, length_combine, rounds_length. apply Nat.min_id.
Qed.

Lemma compress_all_length bs : forall h,
  List.length (fold_left Sha256.compress bs h) = List.length h.
Proof.
  induction bs as [|b bs IH]; intros h; cbn [fold_left].
  - reflexivity.
  - now rewrite IH, compress_length.
Qed.

Lemma be_bytes_length n x : List.length (Sha256.be_bytes n x) = n.
Proof.
  induction n as [|n IH]; cbn [Sha256.be_bytes List.length]; congruence.
Qed.

Lemma flat_be_bytes_length l :
  List.length (flat_map (Sha256.be_bytes 4) l) = 4 * List.length l.
Proof.
  induction l as [|x l IH]; [reflexivity|].
  cbn [flat_map]. rewrite length_app, be_bytes_length, IH.
  cbn [List.length]. lia.
Qed.

(** A SHA-256 digest has 32 bytes. *)
Lemma digest_length msg : List.length (Sha256.digest msg) = 32.
Proof.
  unfold Sha256.digest.
  rewrite length_map, flat_be_bytes_length, compress_all_length.
  reflexivity.
Qed.

Lemma hmac_sha256_length key msg : List.length (hmac_sha256 key msg) = 32.
Proof. unfold hmac_sha256. apply digest_length. Qed.

Lemma hexdigest_length bs :
  String.length (hexdigest bs) = 2 * List.length bs.
Proof.
  induction bs as [|b bs IH]; [reflexivity|].
  cbn [hexdigest String.length List.length]. rewrite IH. lia.
Qed.

Lemma hex_digit_lower n :
  (0 <= n < 16)%Z -> is_lower_hex (hex_digit n) = true.
Proof.
  intros H.
  assert (Hn : n = Z.of_nat (Z.to_nat n)) by lia.
  assert (Hb : (Z.to_nat n < 16)%nat) by lia.
  rewrite Hn. generalize dependent (Z.to_nat n). intros m _ Hm.
  do 16 (destruct m as [|m]; [reflexivity|]). lia.
Qed.

Lemma hexdigest_lower bs : all_lower_hex (hexdigest bs) = true.
Proof.
  induction bs as [|b bs IH]; cbn [hexdigest all_lower_hex]; [reflexivity|].
  assert (H := Z_of_byte_range b).
  rewrite !hex_digit_lower, IH; [reflexivity| |].
  - apply Z.mod_pos_bound. lia.
  - split; [apply Z.div_pos; lia | apply Z.div_lt_upper_bound; lia].
Qed.

(** X16.  With a configured secret, a signature that verifies has 64
    characters, all of them lower-case hexadecimal digits: an upper-case
    digest, or a digest behind a prefix, is never accepted. *)
Theorem verified_signature_is_lower_hex_64
  (payload : bytes) (signature secret : string) :
  secret_configured secret = true ->
  verify_webhook_signature payload signature secret = Ok true ->
  String.length signature = 64 /\ all_lower_hex signature = true.
Proof.
  unfold secret_configured, verify_webhook_signature, compare_digest.
  intros Hs. apply negb_true_iff in Hs. rewrite Hs.
  destruct (is_ascii_str signature && is_ascii_str _); [|discriminate].
  intros [= Heq]. apply String.eqb_eq in Heq. subst signature.
  split.
  - now rewrite hexdigest_length, hmac_sha256_length.
  - apply hexdigest_lower.
Qed.

Lemma verified_signature_witness :
  String.length
    "f7bc83f430538424b13298e6aa6fb143ef4d59a14946175997479dbc2d1a3cd8" = 64
  /\ all_lower_hex
       "f7bc83f430538424b13298e6aa6fb143ef4d59a14946175997479dbc2d1a3cd8"
     = true.
Proof.
  apply (verified_signature_is_lower_hex_64
           (encode "The quick brown fox jumps over the lazy dog") _ "key").
  - reflexivity.
  - vm_compute. reflexivity.
Defined.

(** ** More on the batch endpoint *)

Section BatchMore.

Variable clock : nat -> datetime.
Variable mem0_client : Mem0Client.

Lemma create_memory_of_world r w :
  snd (create_memory_of clock mem0_client r w)
  = with_add (request_call clock r w) (Nat.iter 5 tick w).
Proof.
  unfold create_memory_of, request_call. now rewrite create_memory_run.
Qed.

Lemma create_memory_of_result r w res :
  fst (create_memory_of clock mem0_client r w) = Ok res ->
  MemoryResult.success res = true /\
  MemoryResult.content res = VStr (MemoryWebhookRequest.content r) /\
  MemoryResult.user_id res = of_optional (MemoryWebhookRequest.user_id r).
Proof.
  unfold create_memory_of. rewrite create_memory_run. cbn [fst slice50].
  destruct (add mem0_client _ _) as [a|e]; cbn [bind]; [|discriminate].
  destruct (extract_memory_id a) as [i|e]; cbn [bind]; [|discriminate].
  intros [= <-]. repeat split.
Qed.

Lemma run_each_app m1 : forall m2 w,
  run_each clock mem0_client (m1 ++ m2) w
  = (fst (run_each clock mem0_client m1 w)
     ++ fst (run_each clock mem0_client m2
               (snd (run_each clock mem0_client m1 w))),
     snd (run_each clock mem0_client m2
            (snd (run_each clock mem0_client m1 w)))).
Proof.
  induction m1 as [|r m1 IH]; intros m2 w; cbn [app run_each].
  - cbn [fst snd app]. now destruct (run_each clock mem0_client m2 w).
  - destruct (create_memory_of clock mem0_client r w) as [o w1].
    rewrite IH.
    destruct (run_each clock mem0_client m1 w1) as [os1 w2].
    cbn [fst snd].
    now destruct (run_each clock mem0_client m2 w2) as [os2 w3].
Qed.

Lemma successes_app os1 os2 :
  successes (os1 ++ os2) = successes os1 ++ successes os2.
Proof.
  induction os1 as [|[r [res|e]] os1 IH]; cbn [app successes]; congruence.
Qed.

Lemma failures_app os1 os2 :
  failures (os1 ++ os2) = failures os1 ++ failures os2.
Proof.
  induction os1 as [|[r [res|e]] os1 IH]; cbn [app failures]; congruence.
Qed.

(** Every outcome of a run is the outcome of [create_memory] on an entry
    of the batch. *)
Lemma run_each_outcomes memories : forall w r o,
  In (r, o) (fst (run_each clock mem0_client memories w)) ->
  In r memories /\
  exists w0, o = fst (create_memory_of clock mem0_client r w0).
Proof.
  induction memories as [|r0 rest IH]; intros w r o; cbn [run_each].
  - intros [].
  - destruct (create_memory_of clock mem0_client r0 w) as [o0 w1] eqn:E0.
    specialize (IH w1 r o).
    destruct (run_each clock mem0_client rest w1) as [os w2].
    cbn [fst In] in *. intros [[= <- <-]|Hin].
    + split; [now left|]. exists w. now rewrite E0.
    + destruct (IH Hin) as [Hr Hw]. split; [now right | exact Hw].
Qed.

Lemma successes_In os res :
  In res (successes os) -> exists r, In (r, Ok res) os.
Proof.
  induction os as [|[r [res0|e]] os IH]; cbn [successes].
  - intros [].
  - intros [<-|Hin]; [exists r; now left|].
    destruct (IH Hin) as [r' Hr']. exists r'. now right.
  - intros Hin. destruct (IH Hin) as [r' Hr']. exists r'. now right.
Qed.

Lemma run_each_world memories : forall w,
  let w' := snd (run_each clock mem0_client memories w) in
  clock_reads w' = clock_reads w + 5 * List.length memories /\
  search_calls w' = search_calls w /\
  List.length (add_calls w')
  = List.length (add_calls w) + List.length memories.
Proof.
  induction memories as [|r rest IH]; intros w; cbn [run_each].
  - cbn. repeat split; lia.
  - assert (Hw := create_memory_of_world r w).
    destruct (create_memory_of clock mem0_client r w) as [o w1].
    cbn [snd] in Hw. specialize (IH w1). cbv zeta in IH.
    destruct (run_each clock mem0_client rest w1) as [os w2].
    cbn [snd] in *. destruct IH as (Hc & Hs & Ha).
    rewrite Hc, Hs, Ha, Hw. cbn [with_add clock_reads search_calls add_calls].
    rewrite iter_tick. cbn [clock_reads search_calls add_calls List.length].
    rewrite length_app. cbn [List.length]. repeat split; lia.
Qed.

(** X17.  Entries added at the end of a batch do not change what the earlier
    entries give: the results and the errors of a batch begin with those of
    every batch it extends. *)
Theorem batch_prefix_stable
  (m1 m2 : list MemoryWebhookRequest.t) (w : World) :
  exists resp1 w1 resp12 w12 more_results more_errors,
    webhook_batch_memories clock mem0_client m1 w = (Ok resp1, w1) /\
    webhook_batch_memories clock mem0_client (m1 ++ m2) w = (Ok resp12, w12) /\
    BatchResponse.results resp12
    = BatchResponse.results resp1 ++ more_results /\
    BatchResponse.created resp12
    = BatchResponse.created resp1 + List.length more_results /\
    BatchResponse.failed resp12
    = BatchResponse.failed resp1 + List.length more_errors /\
    (forall errs1,
        BatchResponse.errors resp1 = Some errs1 ->
        BatchResponse.errors resp12 = Some (errs1 ++ more_errors)).
Proof.
  rewrite !webhook_batch_memories_run. cbv zeta. rewrite run_each_app.
  cbn [fst snd]. rewrite successes_app, failures_app.
  do 4 eexists.
  exists (successes (fst (run_each clock mem0_client m2
                            (snd (run_each clock mem0_client m1 w))))).
  exists (failures (fst (run_each clock mem0_client m2
                           (snd (run_each clock mem0_client m1 w))))).
  split; [reflexivity|]. split; [reflexivity|].
  cbn [BatchResponse.results BatchResponse.created BatchResponse.failed
       BatchResponse.errors].
  rewrite !length_app. repeat split.
  intros errs1 H.
  destruct (failures (fst (run_each clock mem0_client m1 w)))
    as [|err errs] eqn:E; [discriminate|].
  injection H as <-. reflexivity.
Qed.

(** X18.  A batch of [n] entries reads the clock [5 * n + 1] times, hands the
    client [n] calls and never searches. *)
Theorem batch_effects (memories : list MemoryWebhookRequest.t) (w : World) :
  let w' := snd (webhook_batch_memories clock mem0_client memories w) in
  clock_reads w' = clock_reads w + 5 * List.length memories + 1 /\
  search_calls w' = search_calls w /\
  List.length (add_calls w')
  = List.length (add_calls w) + List.length memories.
Proof.
  cbv zeta. rewrite webhook_batch_memories_run. cbn [snd].
  destruct (run_each_world memories w) as (Hc & Hs & Ha).
  cbn [tick clock_reads search_calls add_calls].
  rewrite Hc, Hs, Ha. repeat split; lia.
Qed.

(** X19.  The response of a batch is coherent: [errors] is [None] exactly when
    [success] is true and is never an empty list, [failed] and [created]
    are the lengths of [errors] and [results], the timestamp is ISO-8601,
    and every result has [success] true and echoes the content of an entry
    of the batch. *)
Theorem batch_response_coherent
  (memories : list MemoryWebhookRequest.t) (w : World) :
  exists resp w',
    webhook_batch_memories clock mem0_client memories w = (Ok resp, w') /\
    (BatchResponse.errors resp = None <-> BatchResponse.success resp = true) /\
    (forall errs,
        BatchResponse.errors resp = Some errs ->
        errs <> [] /\ BatchResponse.failed resp = List.length errs) /\
    BatchResponse.created resp = List.length (BatchResponse.results resp) /\
    is_isoformat (BatchResponse.timestamp resp) = true /\
    (forall res,
        In res (BatchResponse.results resp) ->
        MemoryResult.success res = true /\
        exists r,
          In r memories /\
          MemoryResult.content res = VStr (MemoryWebhookRequest.content r)).
Proof.
  do 2 eexists. split; [apply webhook_batch_memories_run|].
  cbn [BatchResponse.errors BatchResponse.success BatchResponse.failed
       BatchResponse.created BatchResponse.results BatchResponse.timestamp].
  split; [|split; [|split; [|split]]].
  - destruct (failures _); cbn; split; intros; congruence.
  - intros errs H. destruct (failures _) as [|err l]; [discriminate|].
    injection H as <-. split; [discriminate | reflexivity].
  - reflexivity.
  - apply isoformat_shape.
  - intros res Hin. apply successes_In in Hin as [r Hr].
    apply run_each_outcomes in Hr as [Hmem [w0 Hw0]].
    symmetry in Hw0. apply create_memory_of_result in Hw0 as (Hs & Hc & _).
    split; [exact Hs|]. exists r. now split.
Qed.

End BatchMore.
